(** * AWS Cost Explorer CLI: the aggregation pipeline of [app.py]

    A shallow embedding of [get_cost_data], [process_cost_data] and [main],
    and the properties of the fetch / aggregate / present pipeline.

    Numbers.  The source computes on binary floating point; the
    specification's data model gives a cost as a decimal.  The pipeline is
    embedded twice.  The main embedding takes costs as exact rationals
    ([Q]); it carries the properties that only compare amounts with the
    thresholds 0 and 0.01, which a sum of amounts above a threshold never
    falls below.  Module [Binary64] embeds the Aggregator on the code's
    floats; it carries what is said of the sums themselves.

    pandas.  A DataFrame is the list of its rows, a Series the list of its
    (index, value) pairs, in order.  [groupby(...).sum()] yields one entry
    per distinct key, keys ascending.  [sort_values(ascending=False)] is
    called with the library's default algorithm, which is not stable: the
    embedding takes it as any function that permutes a series into
    descending order of value ([SortValues]).

    Output.  A trace lists the calls that write to the console, those of
    the progress indicator included, and the calls of [print]; the console
    writes to standard output. *)

From Stdlib Require Import List String Bool Arith QArith Qabs Lqa Lia.
From Stdlib Require Import Permutation Sorted.
From Stdlib Require Import Floats.
From Stdlib Require OrderedTypeEx.
Import ListNotations.

#[local] Set Warnings "-register-all".
#[local] Set Warnings "-inexact-float".

Open Scope Q_scope.

(** ** Numbers *)

(** [a > b] on costs, as a boolean. *)
Definition Qgtb (a b : Q) : bool := negb (Qle_bool a b).

(** The literal [0.01] of the source. *)
Definition cent : Q := 1 # 100.

(** [sum()] of a sequence of costs, on exact numbers. *)
Definition Qsum (l : list Q) : Q := fold_right Qplus 0 l.

(** ** Keys of a grouping: strings, and pairs of strings *)

Class Key (K : Type) := {
  key_eqb : K -> K -> bool;
  key_leb : K -> K -> bool
}.

#[export] Instance string_Key : Key string := {|
  key_eqb := String.eqb;
  key_leb := String.leb
|}.

Definition pair_eqb (a b : string * string) : bool :=
  (String.eqb (fst a) (fst b) && String.eqb (snd a) (snd b))%bool.

(** Tuples compare lexicographically. *)
Definition pair_leb (a b : string * string) : bool :=
  (String.ltb (fst a) (fst b)
   || (String.eqb (fst a) (fst b) && String.leb (snd a) (snd b)))%bool.

#[export] Instance pair_Key : Key (string * string) := {|
  key_eqb := pair_eqb;
  key_leb := pair_leb
|}.

(** [key_eqb] decides equality of keys. *)
Class KeyOk (K : Type) `{Key K} :=
  key_eqb_spec : forall a b : K, reflect (a = b) (key_eqb a b).

(** ** Sorting and de-duplication *)

Section Sorting.
Context {A : Type} (leb : A -> A -> bool).

Fixpoint insert_by (x : A) (l : list A) : list A :=
  match l with
  | [] => [x]
  | y :: l' => if leb x y then x :: l else y :: insert_by x l'
  end.

(** A stable sort: an element goes in front of the first later element it
    is [leb] to, so equal elements keep their order. *)
Fixpoint sort_by (l : list A) : list A :=
  match l with
  | [] => []
  | x :: l' => insert_by x (sort_by l')
  end.
End Sorting.

(** [unique()]: the distinct values, in order of first appearance. *)
Fixpoint unique {K} `{Key K} (l : list K) : list K :=
  match l with
  | [] => []
  | x :: l' => x :: filter (fun y => negb (key_eqb y x)) (unique l')
  end.

(** ** The data model *)

(** One flat record, the dict [get_cost_data] appends. *)
Record CostRecord := {
  Date : string;
  Service : string;
  UsageType : string;
  Cost : Q
}.

Definition DataFrame := list CostRecord.
Definition Series (K : Type) := list (K * Q).

(** A [{'name': ..., 'cost': ...}] entry. *)
Record Item := { item_name : string; item_cost : Q }.

Record ServiceData := {
  service_name : string;
  service_cost : Q;
  service_percentage : Q;
  service_usageTypes : list Item
}.

Record DayData := { day_date : string; day_services : list Item }.

Record Report := {
  totalCost : Q;
  services : list ServiceData;
  dailyCosts : list DayData
}.

(** ** pandas operations used by the source *)

(** [s.sort_values(ascending=False)]: some permutation of the series in
    descending order of value.  Which one, among entries of equal value, is
    the library's choice. *)
Class SortValues := {
  sort_values_desc : forall {K : Type}, Series K -> Series K;
  sort_values_perm :
    forall (K : Type) (s : Series K), Permutation s (sort_values_desc s);
  sort_values_sorted :
    forall (K : Type) (s : Series K),
      StronglySorted (fun a b : K * Q => snd b <= snd a) (sort_values_desc s)
}.

(** Two orders of equal values that meet this: the one a stable sort
    leaves, and its reverse within each run of equal values (an ascending
    stable sort, reversed). *)
Definition stable_desc {K : Type} (s : Series K) : Series K :=
  sort_by (fun a b => Qle_bool (snd b) (snd a)) s.

Definition reversed_asc {K : Type} (s : Series K) : Series K :=
  rev (sort_by (fun a b => Qle_bool (snd a) (snd b)) s).

(** [df[df['Cost'] > 0.01]] *)
Definition mask_cost (df : DataFrame) : DataFrame :=
  filter (fun r => Qgtb (Cost r) cent) df.

(** [df[df['Service'] == service]] *)
Definition mask_service (service : string) (df : DataFrame) : DataFrame :=
  filter (fun r => String.eqb (Service r) service) df.

(** [s[s > 0.01]] *)
Definition series_gt {K} (s : Series K) : Series K :=
  filter (fun kv => Qgtb (snd kv) cent) s.

(** [s.sum()] *)
Definition series_sum {K} (s : Series K) : Q := Qsum (map snd s).

(** The rows of one group. *)
Definition group_rows {K} `{Key K} (key : CostRecord -> K) (k : K)
    (df : DataFrame) : DataFrame :=
  filter (fun r => key_eqb (key r) k) df.

(** [df.groupby(key)['Cost'].sum()]: one entry per distinct key, keys in
    ascending order, the value the sum of the group's costs. *)
Definition groupby_sum {K} `{Key K} (key : CostRecord -> K)
    (df : DataFrame) : Series K :=
  map (fun k => (k, Qsum (map Cost (group_rows key k df))))
      (sort_by key_leb (unique (map key df))).

(** ** [process_cost_data] *)

Definition percentage_of (cost total : Q) : Q := cost / total * 100.

Definition usage_items (service_usage : Series string) : list Item :=
  map (fun kv => {| item_name := fst kv; item_cost := snd kv |})
      (filter (fun kv => Qgtb (snd kv) cent) service_usage).

Definition day_data (daily_costs : Series (string * string)) (date : string)
    : DayData :=
  {| day_date := date;
     day_services :=
       map (fun row => {| item_name := snd (fst row); item_cost := snd row |})
           (filter (fun row => Qgtb (snd row) cent)
              (filter (fun row => String.eqb (fst (fst row)) date)
                 daily_costs)) |}.

Section Aggregator.
Context {sv : SortValues}.

(** The usage types of one service (lines 90-91). *)
Definition service_usage_of (df : DataFrame) (service : string)
    : Series string :=
  sort_values_desc (series_gt (groupby_sum UsageType (mask_service service df))).

Definition service_data (df : DataFrame) (total_cost : Q)
    (service : string) (cost : Q) : ServiceData :=
  {| service_name := service;
     service_cost := cost;
     service_percentage := percentage_of cost total_cost;
     service_usageTypes := usage_items (service_usage_of df service) |}.

(** The retained services, costliest first (lines 75-76). *)
Definition service_costs_of (df : DataFrame) : Series string :=
  sort_values_desc (series_gt (groupby_sum Service df)).

Definition process_cost_data (costs_df : DataFrame) : Report :=
  let df := mask_cost costs_df in
  let service_costs := service_costs_of df in
  let total_cost := series_sum service_costs in
  let daily_costs := groupby_sum (fun r => (Date r, Service r)) df in
  {| totalCost := total_cost;
     services :=
       flat_map (fun sc =>
                   if Qgtb (snd sc) cent
                   then [service_data df total_cost (fst sc) (snd sc)]
                   else [])
                service_costs;
     dailyCosts :=
       map (day_data daily_costs)
           (sort_by String.leb (unique (map (fun row => fst (fst row))
                                            daily_costs))) |}.
End Aggregator.

(** ** Exceptions, outcomes and console output *)

(** The exceptions that can reach the code.  [ClientError] is botocore's
    class for an error response of the service; connection and credential
    failures are botocore errors of other classes. *)
Inductive exn :=
| ClientError (msg : string)
| EndpointConnectionError (msg : string)
| NoCredentialsError
| NoRegionError
| IndexError
| OverflowError.

Inductive outcome (A : Type) :=
| Returned (a : A)
| Raised (e : exn).
Arguments Returned {A} a.
Arguments Raised {A} e.

Definition obind {A B} (o : outcome A) (f : A -> outcome B) : outcome B :=
  match o with
  | Returned a => f a
  | Raised e => Raised e
  end.

(** A JSON document, as [json.dumps] receives it. *)
Inductive json :=
| JStr (s : string)
| JNum (q : Q)
| JArr (items : list json)
| JObj (fields : list (string * json)).

(** A cell of a table: a literal text, or a number under the format the
    source applies to it.  How the format renders the number (to two
    decimals with thousands separators, to one decimal) is the language's
    and is not modelled. *)
Inductive Cell :=
| Literal (text : string)
| Money (amount : Q)        (* $ and the amount under [,.2f] *)
| BoldMoney (amount : Q)    (* the same between [bold] marks *)
| Percent (value : Q).      (* the value under [.1f], then % *)

(** One row of a table: the label, the cost cell and the percentage
    cell. *)
Record TableRow := {
  row_label : string;
  row_cost : Cell;
  row_percentage : Cell
}.

(** What the program writes: the calls on the [rich] console, those that
    drive the progress indicator included, and the calls of [print].  The
    console writes to standard output, as [print] does. *)
Inductive event :=
| ProgressStart
| ProgressAddTask (description : string)
| ProgressUpdate
| ProgressStop
| ConsolePanel (text : string)
| ConsolePrint (markup : string)
| ConsoleTable (title : string) (rows : list TableRow)
| ConsoleBlank
| Print (doc : json).

(** A computation writes events and returns or raises. *)
Definition M (A : Type) : Type := list event * outcome A.

Definition ret {A} (a : A) : M A := ([], Returned a).
Definition raise {A} (e : exn) : M A := ([], Raised e).
Definition emit (ev : event) : M unit := ([ev], Returned tt).
Definition lift {A} (o : outcome A) : M A := ([], o).

Definition bind {A B} (m : M A) (f : A -> M B) : M B :=
  match m with
  | (t, Returned a) => let (t', o) := f a in (t ++ t', o)
  | (t, Raised e) => (t, Raised e)
  end.

Notation "x <- m ;; k" := (bind m (fun x => k))
  (at level 61, m at next level, right associativity).
Notation "m ;;; k" := (bind m (fun _ => k))
  (at level 61, right associativity).

(** [try: body except ClientError as e: handler e] *)
Definition try_except_ClientError {A} (body : M A) (handler : string -> M A)
    : M A :=
  match body with
  | (t, Raised (ClientError msg)) =>
      let (t', o) := handler msg in (t ++ t', o)
  | other => other
  end.

(** [with Progress(...) as progress: body]: the display is started, and
    it is stopped when the body returns and when it raises. *)
Definition with_progress {A} (body : M A) : M A :=
  let (t, o) := body in (ProgressStart :: t ++ [ProgressStop], o).

(** [for x in xs: body x], run for its output. *)
Fixpoint for_each {A} (xs : list A) (body : A -> M unit) : M unit :=
  match xs with
  | [] => ret tt
  | x :: xs' => body x ;;; for_each xs' body
  end.

(** ** [get_cost_data] *)

(** One entry of [result['Groups']]: the keys and the parsed amount. *)
Record Group := { Keys : list string; Amount : Q }.

(** One entry of [response['ResultsByTime']]. *)
Record ResultByTime := { Start : string; Groups : list Group }.

Definition Response := list ResultByTime.

(** The body of the inner loop (lines 49-58): the records one group adds.
    [group['Keys'][0]] raises on an empty key list. *)
Definition group_records (date : string) (group : Group)
    : outcome (list CostRecord) :=
  match Keys group with
  | [] => Raised IndexError
  | service :: rest =>
      let usage_type :=
        match rest with
        | u :: _ => u
        | [] => "N/A"%string
        end in
      let cost := Amount group in
      Returned (if Qgtb cost 0
                then [{| Date := date; Service := service;
                         UsageType := usage_type; Cost := cost |}]
                else [])
  end.

(** Appending what each element adds, left to right, until one raises. *)
Fixpoint collect {A B} (f : A -> outcome (list B)) (xs : list A)
    : outcome (list B) :=
  match xs with
  | [] => Returned []
  | x :: xs' =>
      obind (f x) (fun ys =>
      obind (collect f xs') (fun rest => Returned (ys ++ rest)))
  end.

(** Lines 45-58. *)
Definition flatten_response (response : Response)
    : outcome (list CostRecord) :=
  collect (fun result => collect (group_records (Start result))
                                 (Groups result))
          response.

(** The world outside the program: the clock, read at line 133 and again
    at line 134, each time as the proleptic Gregorian ordinal of the
    current date; the formatting of a date as text; and the billing API. *)
Record Env := {
  now_first : Z;
  now_second : Z;
  strftime : Z -> string;
  boto3_client : outcome unit;
  get_cost_and_usage : string -> string -> outcome Response
}.

Definition error_getting_cost_data (msg : string) : string :=
  ("[red]Error getting cost data: " ++ msg ++ "[/red]")%string.

Definition fetching : string := "[cyan]Fetching AWS cost data...".

Definition get_cost_data (env : Env) (start_date end_date : string)
    : M (list CostRecord) :=
  with_progress
    (emit (ProgressAddTask fetching) ;;;
     _ <- lift (boto3_client env) ;;
     try_except_ClientError
       (response <- lift (get_cost_and_usage env start_date end_date) ;;
        costs <- lift (flatten_response response) ;;
        emit ProgressUpdate ;;;
        ret costs)
       (fun msg =>
          emit (ConsolePrint (error_getting_cost_data msg)) ;;;
          ret [])).

(** What the fetch writes: when it returns the records of a response, when
    an exception leaves it, and when it has caught a [ClientError]. *)
Definition fetch_returned : list event :=
  [ProgressStart; ProgressAddTask fetching; ProgressUpdate; ProgressStop].

Definition fetch_raised : list event :=
  [ProgressStart; ProgressAddTask fetching; ProgressStop].

Definition fetch_caught (msg : string) : list event :=
  [ProgressStart; ProgressAddTask fetching;
   ConsolePrint (error_getting_cost_data msg); ProgressStop].

(** ** [main] *)

Record Args := { json_flag : bool; days : Z }.

(** [timedelta(days=...)] takes at most this many days, either way. *)
Definition max_timedelta_days : Z := 999999999.

(** The ordinal of 9999-12-31, the last date. *)
Definition max_ordinal : Z := 3652059.

(** Line 133. *)
Definition end_date_of (env : Env) : string := strftime env (now_first env).

(** Line 134: [datetime.now() - timedelta(days=args.days)] raises
    [OverflowError] when the day count is too large for a [timedelta] and
    when the date falls outside the years 1 to 9999. *)
Definition start_date_of (env : Env) (days : Z) : outcome string :=
  if (Z.abs days >? max_timedelta_days)%Z
  then Raised OverflowError
  else
    let ordinal := (now_second env - days)%Z in
    if ((1 <=? ordinal) && (ordinal <=? max_ordinal))%Z%bool
    then Returned (strftime env ordinal)
    else Raised OverflowError.

Definition json_of_item (it : Item) : json :=
  JObj [("name"%string, JStr (item_name it));
        ("cost"%string, JNum (item_cost it))].

Definition json_of_service (s : ServiceData) : json :=
  JObj [("name"%string, JStr (service_name s));
        ("cost"%string, JNum (service_cost s));
        ("percentage"%string, JNum (service_percentage s));
        ("usageTypes"%string, JArr (map json_of_item (service_usageTypes s)))].

Definition json_of_day (d : DayData) : json :=
  JObj [("date"%string, JStr (day_date d));
        ("services"%string, JArr (map json_of_item (day_services d)))].

(** The dict [process_cost_data] returns, as a document. *)
Definition json_of_report (r : Report) : json :=
  JObj [("totalCost"%string, JNum (totalCost r));
        ("services"%string, JArr (map json_of_service (services r)));
        ("dailyCosts"%string, JArr (map json_of_day (dailyCosts r)))].

Definition no_data_document : json :=
  JObj [("error"%string, JStr "No cost data found")].

Definition no_data_notice : string :=
  "[red]No cost data found or error occurred.[/red]".

Definition newline : string := String (Ascii.ascii_of_nat 10) EmptyString.

Definition header_panel (start_date end_date : string) : event :=
  ConsolePanel ("[bold cyan]AWS Cost Analysis[/bold cyan]" ++ newline
                ++ "[yellow]Period: " ++ start_date ++ " to " ++ end_date
                ++ "[/yellow]")%string.

Definition breakdown_panel : event :=
  ConsolePanel "[bold cyan]Detailed Cost Breakdown by Service[/bold cyan]".

Definition total_row (total_cost : Q) : TableRow :=
  {| row_label := "[bold]Total[/bold]";
     row_cost := BoldMoney total_cost;
     row_percentage := Literal "[bold]100.0%[/bold]" |}.

(** Lines 162-163: the filter repeated inline in [main]. *)
Definition main_df (costs : list CostRecord) : DataFrame :=
  filter (fun r => Qgtb (Cost r) cent) costs.

(** What [main] writes before the fetch. *)
Definition header_of (args : Args) (start_date end_date : string)
    : list event :=
  if json_flag args then [] else [header_panel start_date end_date].

Section Main.
Context {sv : SortValues}.

(** The table of one service (lines 211-234). *)
Definition usage_table (df : DataFrame) (service : string) (cost : Q)
    : event :=
  let service_df := filter (fun r => String.eqb (Service r) service) df in
  let usage_costs :=
    sort_values_desc (groupby_sum UsageType service_df) in
  ConsoleTable (service ++ " Usage Types")%string
    (flat_map (fun uc =>
                 if Qgtb (snd uc) cent
                 then [{| row_label := fst uc;
                          row_cost := Money (snd uc);
                          row_percentage :=
                            Percent (snd uc / cost * 100) |}]
                 else [])
              usage_costs).

(** Lines 165-169: the aggregation repeated inline in [main]. *)
Definition main_service_costs (costs : list CostRecord) : Series string :=
  let service_costs := groupby_sum Service (main_df costs) in
  sort_values_desc (filter (fun kv => Qgtb (snd kv) cent) service_costs).

Definition main_total_cost (costs : list CostRecord) : Q :=
  Qsum (map snd (main_service_costs costs)).

(** Lines 171-234: the report on the console. *)
Definition print_tables (costs : list CostRecord) : M unit :=
  let df := main_df costs in
  let service_costs := main_service_costs costs in
  let total_cost := main_total_cost costs in
  let services_table :=
    ConsoleTable "Services Overview"
      (flat_map (fun sc =>
                   if Qgtb (snd sc) cent
                   then [{| row_label := fst sc;
                            row_cost := Money (snd sc);
                            row_percentage :=
                              Percent (snd sc / total_cost * 100) |}]
                   else [])
                service_costs
       ++ [total_row total_cost]) in
  emit services_table ;;;
  emit ConsoleBlank ;;;
  emit breakdown_panel ;;;
  for_each service_costs (fun sc =>
    if Qgtb (snd sc) cent
    then emit (usage_table df (fst sc) (snd sc)) ;;; emit ConsoleBlank
    else ret tt).

Definition main (args : Args) (env : Env) : M unit :=
  let end_date := end_date_of env in
  start_date <- lift (start_date_of env (days args)) ;;
  (if negb (json_flag args)
   then emit (header_panel start_date end_date)
   else ret tt) ;;;
  costs <- get_cost_data env start_date end_date ;;
  match costs with
  | [] =>
      if json_flag args
      then emit (Print no_data_document)
      else emit (ConsolePrint no_data_notice)
  | _ :: _ =>
      if json_flag args
      then emit (Print (json_of_report (process_cost_data costs)))
      else print_tables costs
  end.
End Main.

(** ** [process_cost_data] on objects

    The caller passes [process_cost_data] a reference to its frame, and the
    function builds its result by appending to lists it has created.  Here
    the frames and these lists live in a store and are named by their
    address: indexing a frame by a mask builds a new frame, and [append]
    changes the list it is called on. *)

Inductive object :=
| FrameObject (rows : DataFrame)
| ServiceList (items : list ServiceData)
| DayList (items : list DayData).

Definition ref := nat.
Definition Store := list object.
Definition ST (A : Type) : Type := Store -> A * Store.

Definition st_ret {A} (a : A) : ST A := fun st => (a, st).

Definition st_bind {A B} (m : ST A) (f : A -> ST B) : ST B :=
  fun st => let (a, st') := m st in f a st'.

Notation "x <~ m ;; k" := (st_bind m (fun x => k))
  (at level 61, m at next level, right associativity).

Definition rows_of (o : object) : DataFrame :=
  match o with FrameObject rows => rows | _ => [] end.

Definition services_in (o : object) : list ServiceData :=
  match o with ServiceList items => items | _ => [] end.

Definition days_in (o : object) : list DayData :=
  match o with DayList items => items | _ => [] end.

Definition fetch (p : ref) : ST object :=
  fun st => (nth p st (FrameObject []), st).

Definition alloc (o : object) : ST ref :=
  fun st => (List.length st, (st ++ [o])%list).

(** The store with the object at [p] changed by [f]. *)
Fixpoint modify (p : ref) (f : object -> object) (st : Store) : Store :=
  match st, p with
  | [], _ => []
  | o :: st', O => f o :: st'
  | o :: st', S p' => o :: modify p' f st'
  end.

Definition update (p : ref) (f : object -> object) : ST unit :=
  fun st => (tt, modify p f st).

(** [frame[mask]] *)
Definition getitem (p : ref) (mask : CostRecord -> bool) : ST ref :=
  o <~ fetch p ;; alloc (FrameObject (filter mask (rows_of o))).

(** [frame.groupby(key)['Cost'].sum()] *)
Definition groupby_sum_at {K} `{Key K} (key : CostRecord -> K) (p : ref)
    : ST (Series K) :=
  o <~ fetch p ;; st_ret (groupby_sum key (rows_of o)).

(** [result['services'].append(service_data)] *)
Definition append_service (p : ref) (s : ServiceData) : ST unit :=
  update p (fun o =>
              match o with
              | ServiceList items => ServiceList (items ++ [s])
              | _ => o
              end).

(** [result['dailyCosts'].append(day_data)] *)
Definition append_day (p : ref) (d : DayData) : ST unit :=
  update p (fun o =>
              match o with
              | DayList items => DayList (items ++ [d])
              | _ => o
              end).

(** [for x in xs: body x] *)
Fixpoint st_each {A} (xs : list A) (body : A -> ST unit) : ST unit :=
  match xs with
  | [] => st_ret tt
  | x :: xs' => _ <~ body x ;; st_each xs' body
  end.

Section OnObjects.
Context {sv : SortValues}.

(** The body of the loop over the services (lines 89-106). *)
Definition service_step (df services_ref : ref) (total_cost : Q)
    (sc : string * Q) : ST unit :=
  if Qgtb (snd sc) cent
  then
    service_df <~ getitem df (fun r => String.eqb (Service r) (fst sc)) ;;
    service_usage <~ groupby_sum_at UsageType service_df ;;
    let service_usage := sort_values_desc (series_gt service_usage) in
    append_service services_ref
      {| service_name := fst sc;
         service_cost := snd sc;
         service_percentage := percentage_of (snd sc) total_cost;
         service_usageTypes := usage_items service_usage |}
  else st_ret tt.

Definition process_cost_data_at (costs_df : ref) : ST Report :=
  df <~ getitem costs_df (fun r => Qgtb (Cost r) cent) ;;
  service_costs <~ groupby_sum_at Service df ;;
  let service_costs := sort_values_desc (series_gt service_costs) in
  let total_cost := series_sum service_costs in
  services_ref <~ alloc (ServiceList []) ;;
  days_ref <~ alloc (DayList []) ;;
  _ <~ st_each service_costs (service_step df services_ref total_cost) ;;
  daily_costs <~ groupby_sum_at (fun r => (Date r, Service r)) df ;;
  _ <~ st_each (sort_by String.leb
                  (unique (map (fun row => fst (fst row)) daily_costs)))
         (fun date => append_day days_ref (day_data daily_costs date)) ;;
  service_list <~ fetch services_ref ;;
  day_list <~ fetch days_ref ;;
  st_ret {| totalCost := total_cost;
            services := services_in service_list;
            dailyCosts := days_in day_list |}.
End OnObjects.

(** The store while the function runs: the caller's objects, then the
    filtered frame, the two lists of the result, and the frames of the
    services met so far. *)
Definition running (st0 : Store) (df : DataFrame)
    (service_list : list ServiceData) (day_list : list DayData)
    (frames : Store) : Store :=
  (st0 ++ FrameObject df :: ServiceList service_list :: DayList day_list
       :: frames)%list.

(** ** The Presenter as a function of the Report

    The human mode as the specification describes it: a table of the
    report's services with a total row, then one table per service of its
    usage types, each with its share of the service's cost. *)

Definition service_row (s : ServiceData) : TableRow :=
  {| row_label := service_name s;
     row_cost := Money (service_cost s);
     row_percentage := Percent (service_percentage s) |}.

Definition usage_row (s : ServiceData) (it : Item) : TableRow :=
  {| row_label := item_name it;
     row_cost := Money (item_cost it);
     row_percentage := Percent (item_cost it / service_cost s * 100) |}.

Definition present_report (r : Report) : list event :=
  [ConsoleTable "Services Overview"
     (map service_row (services r) ++ [total_row (totalCost r)]);
   ConsoleBlank;
   breakdown_panel]
  ++ flat_map (fun s =>
                 [ConsoleTable (service_name s ++ " Usage Types")%string
                    (map (usage_row s) (service_usageTypes s));
                  ConsoleBlank])
              (services r).

(** ** The numbers an output shows *)

Fixpoint json_numbers (doc : json) : list Q :=
  match doc with
  | JStr _ => []
  | JNum q => [q]
  | JArr items => flat_map json_numbers items
  | JObj fields => flat_map (fun kv => json_numbers (snd kv)) fields
  end.

Definition cell_numbers (c : Cell) : list Q :=
  match c with
  | Literal _ => []
  | Money q | BoldMoney q | Percent q => [q]
  end.

Definition event_numbers (ev : event) : list Q :=
  match ev with
  | ConsoleTable _ rows =>
      flat_map (fun row => cell_numbers (row_cost row)
                           ++ cell_numbers (row_percentage row)) rows
  | Print doc => json_numbers doc
  | _ => []
  end.

Definition trace_numbers (t : list event) : list Q :=
  flat_map event_numbers t.

(** A sequence of costs in descending order: each cost is at least every
    later one. *)
Definition descending (costs : list Q) : Prop :=
  StronglySorted (fun a b => b <= a) costs.

(** Two amounts agree within the cent. *)
Definition within_cent (a b : Q) : Prop := Qabs (a - b) <= cent.

(** A trace shows no table. *)
Definition no_table (t : list event) : Prop :=
  forall title rows, ~ In (ConsoleTable title rows) t.

(** ** Shapes of a report and of a trace *)

(** The key of the grouping by day and service (line 109). *)
Definition day_key (r : CostRecord) : string * string := (Date r, Service r).

(** Names in strictly ascending order. *)
Definition ascending (names : list string) : Prop :=
  StronglySorted (fun a b => String.ltb a b = true) names.

(** The documents a trace prints. *)
Definition prints (t : list event) : list json :=
  flat_map (fun ev => match ev with Print doc => [doc] | _ => [] end) t.

(** ** Sample inputs *)

Definition record (date service usage_type : string) (cost : Q)
    : CostRecord :=
  {| Date := date; Service := service; UsageType := usage_type;
     Cost := cost |}.

(** The scenario of the specification: two services on one day. *)
Definition scenario_costs : list CostRecord :=
  [record "2024-01-01" "EC2" "BoxUsage" 10;
   record "2024-01-01" "S3" "Storage" 5].

(** One service with two usage types, 30 and 10. *)
Definition split_costs : list CostRecord :=
  [record "2024-01-01" "EC2" "BoxUsage" 30;
   record "2024-01-01" "EC2" "DataTransfer" 10].

(** Four services, equal in cost two by two. *)
Definition two_ties_costs : list CostRecord :=
  [record "2024-01-01" "A" "u" 1;
   record "2024-01-01" "B" "u" 1;
   record "2024-01-01" "C" "u" 2;
   record "2024-01-01" "D" "u" 2].

(** Only amounts of half a cent. *)
Definition small_costs : list CostRecord :=
  [record "2024-01-01" "S3" "Requests" (1 # 200)].

Definition response_of (costs : list CostRecord) : Response :=
  map (fun r => {| Start := Date r;
                   Groups := [{| Keys := [Service r; UsageType r];
                                 Amount := Cost r |}] |})
      costs.

(** A response in which one group, of amount 0, has no key. *)
Definition keyless_response : Response :=
  [{| Start := "2024-01-01";
      Groups := [{| Keys := ["EC2"%string; "BoxUsage"%string];
                    Amount := 10 |};
                 {| Keys := []; Amount := 0 |}] |}].

(** The texts of 2024-01-01 and 2024-01-31, of ordinals 738886 and
    738916. *)
Definition sample_strftime (ordinal : Z) : string :=
  if (ordinal =? 738916)%Z then "2024-01-31"
  else if (ordinal =? 738886)%Z then "2024-01-01"
  else "another day".

(** A world, on 2024-01-31, in which the API answers with, or raises, a
    given outcome. *)
Definition env_with (answer : outcome Response) : Env :=
  {| now_first := 738916;
     now_second := 738916;
     strftime := sample_strftime;
     boto3_client := Returned tt;
     get_cost_and_usage := fun _ _ => answer |}.

(** A world in which creating the client raises. *)
Definition env_without_client (x : exn) : Env :=
  {| now_first := 738916;
     now_second := 738916;
     strftime := sample_strftime;
     boto3_client := Raised x;
     get_cost_and_usage := fun _ _ => Returned [] |}.

Definition json_mode : Args := {| json_flag := true; days := 30 |}.
Definition human_mode : Args := {| json_flag := false; days := 30 |}.

(** Whether a trace shows the number [q]. *)
Definition shows (q : Q) (t : list event) : bool :=
  existsb (Qeq_bool q) (trace_numbers t).

(** ** The Aggregator on binary64

    [process_cost_data] once more, with the costs as the floats the code
    computes on.  How pandas orders equal values and in which order it adds
    the terms of a sum is left to the library ([Pandas]). *)

Module Binary64.

Record CostRecord := {
  Date : string;
  Service : string;
  UsageType : string;
  Cost : float
}.

Definition DataFrame := list CostRecord.
Definition Series (K : Type) := list (K * float).

Record Item := { item_name : string; item_cost : float }.

Record ServiceData := {
  service_name : string;
  service_cost : float;
  service_percentage : float;
  service_usageTypes : list Item
}.

Record DayData := { day_date : string; day_services : list Item }.

Record Report := {
  totalCost : float;
  services : list ServiceData;
  dailyCosts : list DayData
}.

(** [a > b] *)
Definition gtb (a b : float) : bool := PrimFloat.ltb b a.

(** The literal [0.01] of the source: the nearest float. *)
Definition cent : float := 0.01%float.

(** The library: [sort_values(ascending=False)] permutes a series;
    [Series.sum()] and the sum of one group of [groupby(...).sum()] are
    functions of the values in their order. *)
Class Pandas := {
  sort_values_desc : forall {K : Type}, Series K -> Series K;
  sort_values_perm :
    forall (K : Type) (s : Series K), Permutation s (sort_values_desc s);
  sum_of_series : list float -> float;
  sum_of_group : list float -> float
}.

Definition mask_cost (df : DataFrame) : DataFrame :=
  filter (fun r => gtb (Cost r) cent) df.

Definition mask_service (service : string) (df : DataFrame) : DataFrame :=
  filter (fun r => String.eqb (Service r) service) df.

Definition series_gt {K} (s : Series K) : Series K :=
  filter (fun kv => gtb (snd kv) cent) s.

Definition group_rows {K} `{Key K} (key : CostRecord -> K) (k : K)
    (df : DataFrame) : DataFrame :=
  filter (fun r => key_eqb (key r) k) df.

Definition percentage_of (cost total : float) : float :=
  (cost / total * 100)%float.

Definition usage_items (service_usage : Series string) : list Item :=
  map (fun kv => {| item_name := fst kv; item_cost := snd kv |})
      (filter (fun kv => gtb (snd kv) cent) service_usage).

Definition day_data (daily_costs : Series (string * string)) (date : string)
    : DayData :=
  {| day_date := date;
     day_services :=
       map (fun row => {| item_name := snd (fst row); item_cost := snd row |})
           (filter (fun row => gtb (snd row) cent)
              (filter (fun row => String.eqb (fst (fst row)) date)
                 daily_costs)) |}.

Section Aggregator.
Context {pd : Pandas}.

Definition series_sum {K} (s : Series K) : float :=
  sum_of_series (map snd s).

Definition groupby_sum {K} `{Key K} (key : CostRecord -> K)
    (df : DataFrame) : Series K :=
  map (fun k => (k, sum_of_group (map Cost (group_rows key k df))))
      (sort_by key_leb (unique (map key df))).

Definition service_usage_of (df : DataFrame) (service : string)
    : Series string :=
  sort_values_desc (series_gt (groupby_sum UsageType (mask_service service df))).

Definition service_data (df : DataFrame) (total_cost : float)
    (service : string) (cost : float) : ServiceData :=
  {| service_name := service;
     service_cost := cost;
     service_percentage := percentage_of cost total_cost;
     service_usageTypes := usage_items (service_usage_of df service) |}.

Definition service_costs_of (df : DataFrame) : Series string :=
  sort_values_desc (series_gt (groupby_sum Service df)).

Definition process_cost_data (costs_df : DataFrame) : Report :=
  let df := mask_cost costs_df in
  let service_costs := service_costs_of df in
  let total_cost := series_sum service_costs in
  let daily_costs := groupby_sum (fun r => (Date r, Service r)) df in
  {| totalCost := total_cost;
     services :=
       flat_map (fun sc =>
                   if gtb (snd sc) cent
                   then [service_data df total_cost (fst sc) (snd sc)]
                   else [])
                service_costs;
     dailyCosts :=
       map (day_data daily_costs)
           (sort_by String.leb (unique (map (fun row => fst (fst row))
                                            daily_costs))) |}.

End Aggregator.

(** The retained records as the specification words them: those with cost
    above 0.01; of one service; of one usage type of a service. *)
Definition retained (costs : list CostRecord) : list CostRecord :=
  filter (fun r => PrimFloat.ltb 0.01 (Cost r)) costs.

Definition retained_of_service (service : string) (costs : list CostRecord)
    : list CostRecord :=
  filter (fun r => String.eqb (Service r) service) (retained costs).

Definition retained_of_usage (service usage_type : string)
    (costs : list CostRecord) : list CostRecord :=
  filter (fun r => String.eqb (UsageType r) usage_type)
         (retained_of_service service costs).

(** The number a float stands for, when it is finite. *)
Definition value_of (x : float) : option Q :=
  match FloatOps.Prim2SF x with
  | SpecFloat.S754_zero _ => Some 0
  | SpecFloat.S754_finite s m e =>
      Some (Qred ((if s then -1 else 1) * inject_Z (Zpos m) * 2 ^ e))
  | _ => None
  end.

(** The exact sum of the numbers some floats stand for. *)
Fixpoint sum_of_values (l : list float) : option Q :=
  match l with
  | [] => Some 0
  | x :: l' =>
      match value_of x, sum_of_values l' with
      | Some q, Some total => Some (Qred (q + total))
      | _, _ => None
      end
  end.

(** Terms added one after the other, from zero. *)
Definition sequential_sum (l : list float) : float :=
  fold_left PrimFloat.add l 0%float.

Definition stable_desc {K : Type} (s : Series K) : Series K :=
  sort_by (fun a b => PrimFloat.leb (snd b) (snd a)) s.

Definition record (date service usage_type : string) (cost : float)
    : CostRecord :=
  {| Date := date; Service := service; UsageType := usage_type;
     Cost := cost |}.

(** Two services, of 1e16 and of 1. *)
Definition large_and_small : list CostRecord :=
  [record "2024-01-01" "EC2" "BoxUsage" 1e16%float;
   record "2024-01-01" "S3" "Storage" 1%float].

(** One service with two usage types, of 1e16 and of 1. *)
Definition large_and_small_usage : list CostRecord :=
  [record "2024-01-01" "EC2" "BoxUsage" 1e16%float;
   record "2024-01-01" "EC2" "DataTransfer" 1%float].

End Binary64.

(** * Properties *)

(** ** Numbers *)

Lemma Qgtb_lt (a b : Q) : Qgtb a b = true <-> b < a.
Proof.
  unfold Qgtb. rewrite negb_true_iff. split.
  - intro E. apply Qnot_le_lt. intro L.
    apply Qle_bool_iff in L. congruence.
  - intro L. destruct (Qle_bool a b) eqn:E; [|reflexivity].
    apply Qle_bool_iff in E. lra.
Qed.

Lemma Qgtb_false (a b : Q) : Qgtb a b = false <-> a <= b.
Proof.
  unfold Qgtb. rewrite negb_false_iff. apply Qle_bool_iff.
Qed.

(** A sum of at least one cost, each above a non-negative bound, is above
    the bound. *)
Lemma Qsum_above (t : Q) (l : list Q) :
  0 <= t -> l <> [] -> Forall (fun c => t < c) l -> t < Qsum l.
Proof.
  intros Ht Hne Hall. induction Hall as [|c l Hc Hall IH].
  - congruence.
  - simpl. destruct l as [|c' l'].
    + simpl. lra.
    + assert (t < Qsum (c' :: l')) by (apply IH; discriminate). lra.
Qed.

Lemma cent_nonneg : 0 <= cent.
Proof. unfold cent. lra. Qed.
(** ** Lists *)

Lemma filter_all {A} (p : A -> bool) (l : list A) :
  Forall (fun x => p x = true) l -> filter p l = l.
Proof.
  induction 1 as [|x l Hx _ IH]; simpl.
  - reflexivity.
  - rewrite Hx, IH. reflexivity.
Qed.

Lemma filter_none {A} (p : A -> bool) (l : list A) :
  Forall (fun x => p x = false) l -> filter p l = [].
Proof.
  induction 1 as [|x l Hx _ IH]; simpl.
  - reflexivity.
  - rewrite Hx. exact IH.
Qed.

Lemma flat_map_keep {A B} (p : A -> bool) (f : A -> B) (l : list A) :
  flat_map (fun x => if p x then [f x] else []) l = map f (filter p l).
Proof.
  induction l as [|x l IH]; simpl.
  - reflexivity.
  - destruct (p x); simpl; rewrite IH; reflexivity.
Qed.

(** ** The stable sort *)

Section SortingFacts.
Context {A : Type} (leb : A -> A -> bool).
Lemma insert_by_perm (x : A) (l : list A) :
  Permutation (x :: l) (insert_by leb x l).
Proof.
  induction l as [|y l IH]; simpl.
  - reflexivity.
  - destruct (leb x y).
    + reflexivity.
    + rewrite perm_swap. apply perm_skip. exact IH.
Qed.

Lemma sort_by_perm (l : list A) : Permutation l (sort_by leb l).
Proof.
  induction l as [|x l IH]; simpl.
  - reflexivity.
  - rewrite <- insert_by_perm. apply perm_skip. exact IH.
Qed.

Lemma sort_by_In (x : A) (l : list A) : In x (sort_by leb l) <-> In x l.
Proof.
  split; apply Permutation_in;
    [symmetry|]; apply sort_by_perm.
Qed.

Hypothesis leb_total : forall x y, leb x y = true \/ leb y x = true.
Hypothesis leb_trans :
  forall x y z, leb x y = true -> leb y z = true -> leb x z = true.

Lemma insert_by_sorted (x : A) (l : list A) :
  StronglySorted (fun a b => leb a b = true) l ->
  StronglySorted (fun a b => leb a b = true) (insert_by leb x l).
Proof.
  induction 1 as [|y l Hs IH Hy]; simpl.
  - repeat constructor.
  - destruct (leb x y) eqn:E.
    + constructor; [constructor; assumption|].
      constructor; [exact E|].
      eapply Forall_impl; [|exact Hy].
      intros z Hz. eapply leb_trans; eassumption.
    + constructor; [exact IH|].
      eapply Permutation_Forall; [apply insert_by_perm|].
      constructor; [|exact Hy].
      destruct (leb_total x y); congruence.
Qed.

Lemma sort_by_sorted (l : list A) :
  StronglySorted (fun a b => leb a b = true) (sort_by leb l).
Proof.
  induction l as [|x l IH]; simpl.
  - constructor.
  - apply insert_by_sorted. exact IH.
Qed.

End SortingFacts.

(** ** Keys, [unique] and [groupby] *)

#[export] Instance string_KeyOk : KeyOk string.
Proof. exact String.eqb_spec. Qed.
#[export] Instance pair_KeyOk : KeyOk (string * string).
Proof.
  intros [a1 a2] [b1 b2]. unfold key_eqb; simpl. unfold pair_eqb; simpl.
  destruct (String.eqb_spec a1 b1) as [-> | N1]; simpl.
  - destruct (String.eqb_spec a2 b2) as [-> | N2]; constructor; congruence.
  - constructor; congruence.
Qed.

Section Grouping.
Context {K : Type} `{KeyOk K}.
Lemma key_eqb_refl (k : K) : key_eqb k k = true.
Proof. destruct (key_eqb_spec k k); congruence. Qed.
Lemma key_eqb_true (a b : K) : key_eqb a b = true -> a = b.
Proof. destruct (key_eqb_spec a b); congruence. Qed.
Lemma unique_In (x : K) (l : list K) : In x (unique l) <-> In x l.
Proof.
  induction l as [|y l IH]; simpl.
  - tauto.
  - rewrite filter_In, IH. split.
    + tauto.
    + intros [-> | Hin]; [tauto|].
      destruct (key_eqb_spec x y) as [-> | N]; [tauto|].
      right. split; [assumption | reflexivity].
Qed.

Lemma unique_NoDup (l : list K) : NoDup (unique l).
Proof.
  induction l as [|y l IH]; simpl.
  - constructor.
  - constructor.
    + rewrite filter_In. intros [_ N].
      rewrite key_eqb_refl in N. discriminate.
    + apply NoDup_filter. exact IH.
Qed.

Variable key : CostRecord -> K.
(** The keys of the grouped series: distinct, and those of the rows. *)
Lemma group_keys_perm (df : DataFrame) :
  Permutation (unique (map key df)) (map fst (groupby_sum key df)).
Proof.
  unfold groupby_sum. rewrite map_map. simpl. rewrite map_id.
  apply sort_by_perm.
Qed.

Lemma group_keys_NoDup (df : DataFrame) :
  NoDup (map fst (groupby_sum key df)).
Proof.
  eapply Permutation_NoDup; [apply group_keys_perm | apply unique_NoDup].
Qed.

(** An entry of the grouped series: its key occurs in the frame and its
    value is the sum over the rows of the group. *)
Lemma groupby_sum_In (df : DataFrame) (kv : K * Q) :
  In kv (groupby_sum key df) ->
  In (fst kv) (map key df)
  /\ snd kv = Qsum (map Cost (group_rows key (fst kv) df)).
Proof.
  unfold groupby_sum. rewrite in_map_iff. intros [k [<- Hin]]. simpl.
  split; [|reflexivity].
  rewrite sort_by_In, unique_In in Hin. exact Hin.
Qed.

Lemma group_rows_nonempty (df : DataFrame) (k : K) :
  In k (map key df) -> group_rows key k df <> [].
Proof.
  rewrite in_map_iff. intros [r [<- Hr]] E.
  assert (Hin : In r (group_rows key (key r) df)).
  { unfold group_rows. apply filter_In. split; [exact Hr|].
    apply key_eqb_refl. }
  rewrite E in Hin. exact Hin.
Qed.

(** Grouping rows that are each above the cent gives sums above the
    cent: the filter on the grouped series then drops nothing. *)
Lemma groupby_sum_above (df : DataFrame) :
  Forall (fun r => cent < Cost r) df ->
  Forall (fun kv => cent < snd kv) (groupby_sum key df).
Proof.
  intro Hdf. apply Forall_forall. intros kv Hkv.
  destruct (groupby_sum_In df kv Hkv) as [Hk ->].
  apply Qsum_above.
  - exact cent_nonneg.
  - intro E. apply map_eq_nil in E. revert E.
    apply group_rows_nonempty. exact Hk.
  - apply Forall_map. unfold group_rows.
    apply Forall_forall. intros r Hr. apply filter_In in Hr.
    rewrite Forall_forall in Hdf. apply Hdf. tauto.
Qed.

Lemma series_gt_id (df : DataFrame) :
  Forall (fun r => cent < Cost r) df ->
  series_gt (groupby_sum key df) = groupby_sum key df.
Proof.
  intro Hdf. unfold series_gt. apply filter_all.
  eapply Forall_impl; [|apply groupby_sum_above; exact Hdf].
  intros kv Hkv. apply Qgtb_lt. exact Hkv.
Qed.

End Grouping.

(** ** Sorted sequences *)

Lemma StronglySorted_map {A B} (R : A -> A -> Prop) (R' : B -> B -> Prop)
    (f : A -> B) (l : list A) :
  (forall a b, R a b -> R' (f a) (f b)) ->
  StronglySorted R l -> StronglySorted R' (map f l).
Proof.
  intro Himp. induction 1 as [|x l Hs IH Hx]; simpl.
  - constructor.
  - constructor; [exact IH|]. apply Forall_map.
    eapply Forall_impl; [|exact Hx]. intros b Hb. apply Himp. exact Hb.
Qed.

Lemma StronglySorted_filter {A} (R : A -> A -> Prop) (p : A -> bool)
    (l : list A) :
  StronglySorted R l -> StronglySorted R (filter p l).
Proof.
  induction 1 as [|x l Hs IH Hx]; simpl.
  - constructor.
  - destruct (p x); [|exact IH].
    constructor; [exact IH|].
    apply Forall_forall. intros y Hy. apply filter_In in Hy.
    rewrite Forall_forall in Hx. apply Hx. tauto.
Qed.

Lemma Qge_bool_total {K} (x y : K * Q) :
  Qle_bool (snd y) (snd x) = true \/ Qle_bool (snd x) (snd y) = true.
Proof.
  destruct (Qlt_le_dec (snd x) (snd y)) as [L | L].
  - right. apply Qle_bool_iff. lra.
  - left. apply Qle_bool_iff. exact L.
Qed.

Lemma Qge_bool_trans {K} (x y z : K * Q) :
  Qle_bool (snd y) (snd x) = true -> Qle_bool (snd z) (snd y) = true ->
  Qle_bool (snd z) (snd x) = true.
Proof.
  intros Hxy Hyz. apply Qle_bool_iff in Hxy, Hyz.
  apply Qle_bool_iff. lra.
Qed.

Lemma filter_map_comm {A B} (p : B -> bool) (f : A -> B) (l : list A) :
  filter p (map f l) = map f (filter (fun x => p (f x)) l).
Proof.
  induction l as [|x l IH]; simpl.
  - reflexivity.
  - destruct (p (f x)); simpl; rewrite IH; reflexivity.
Qed.

(** ** Orders that [sort_values] may leave *)

Lemma StronglySorted_rev {A} (R : A -> A -> Prop) (l : list A) :
  StronglySorted R l -> StronglySorted (fun a b => R b a) (rev l).
Proof.
  induction 1 as [|x l Hs IH Hx]; simpl.
  - constructor.
  - assert (Happ : forall l1 l2,
               StronglySorted (fun a b => R b a) l1 ->
               StronglySorted (fun a b => R b a) l2 ->
               (forall a b, In a l1 -> In b l2 -> R b a) ->
               StronglySorted (fun a b => R b a) (l1 ++ l2)).
    { clear. induction l1 as [|a l1 IH1]; simpl; intros l2 H1 H2 H12.
      - exact H2.
      - inversion H1; subst. constructor.
        + apply IH1; auto.
        + apply Forall_app. split; [assumption|].
          apply Forall_forall. intros b Hb. apply H12; auto. }
    apply Happ; [exact IH | repeat constructor |].
    intros a b Ha [<- | []]. rewrite Forall_forall in Hx.
    apply Hx. apply in_rev. exact Ha.
Qed.

(** The order a stable sort leaves. *)
#[export] Instance stable_order : SortValues.
Proof.
  refine {| sort_values_desc := @stable_desc |}.
  - intros K s. apply sort_by_perm.
  - intros K s. unfold stable_desc.
    rewrite <- (map_id (sort_by _ s)).
    eapply StronglySorted_map;
      [|apply (sort_by_sorted (fun a b : K * Q => Qle_bool (snd b) (snd a)));
        [apply Qge_bool_total | apply Qge_bool_trans]].
    intros a b Hab. apply Qle_bool_iff. exact Hab.
Defined.

(** The order an ascending stable sort leaves, reversed. *)
Definition reversed_order : SortValues.
Proof.
  refine {| sort_values_desc := @reversed_asc |}.
  - intros K s. unfold reversed_asc.
    rewrite <- Permutation_rev. apply sort_by_perm.
  - intros K s. unfold reversed_asc.
    apply (StronglySorted_rev (fun a b : K * Q => snd a <= snd b)).
    rewrite <- (map_id (sort_by _ s)).
    eapply StronglySorted_map;
      [|apply (sort_by_sorted (fun a b : K * Q => Qle_bool (snd a) (snd b)))].
    + intros a b Hab. apply Qle_bool_iff. exact Hab.
    + intros x y. destruct (Qge_bool_total x y); tauto.
    + intros x y z Hxy Hyz. apply (Qge_bool_trans z y x); assumption.
Defined.

Section SortValuesFacts.
Context {sv : SortValues}.

Lemma sort_values_In {K} (x : K * Q) (s : Series K) :
  In x (sort_values_desc s) <-> In x s.
Proof.
  split; apply Permutation_in;
    [symmetry|]; apply sort_values_perm.
Qed.

Lemma sort_values_Forall {K} (P : K * Q -> Prop) (s : Series K) :
  Forall P s -> Forall P (sort_values_desc s).
Proof.
  intro H. eapply Permutation_Forall; [apply sort_values_perm | exact H].
Qed.

Lemma sort_values_desc_descending {K} (s : Series K) :
  descending (map snd (sort_values_desc s)).
Proof.
  unfold descending.
  eapply StronglySorted_map; [|apply sort_values_sorted].
  intros a b Hab. exact Hab.
Qed.

End SortValuesFacts.

Section Facts.
Context {sv : SortValues}.

Lemma mask_cost_above (df : DataFrame) :
  Forall (fun r => cent < Cost r) (mask_cost df).
Proof.
  apply Forall_forall. intros r Hr. apply filter_In in Hr.
  apply Qgtb_lt. tauto.
Qed.

Lemma mask_service_above (service : string) (df : DataFrame) :
  Forall (fun r => cent < Cost r) df ->
  Forall (fun r => cent < Cost r) (mask_service service df).
Proof.
  intro H. apply Forall_forall. intros r Hr. apply filter_In in Hr.
  rewrite Forall_forall in H. apply H. tauto.
Qed.

(** ** The shape of the report *)

Lemma service_costs_of_gt (df : DataFrame) :
  Forall (fun sc => Qgtb (snd sc) cent = true) (service_costs_of df).
Proof.
  unfold service_costs_of. apply sort_values_Forall.
  unfold series_gt. apply Forall_forall. intros sc Hsc.
  apply filter_In in Hsc. tauto.
Qed.

(** Every retained service passes the test of the loop: the services of the
    report are the retained services, in order. *)
Lemma services_of_report (costs_df : DataFrame) :
  services (process_cost_data costs_df)
  = map (fun sc => service_data (mask_cost costs_df)
                     (totalCost (process_cost_data costs_df)) (fst sc) (snd sc))
        (service_costs_of (mask_cost costs_df)).
Proof.
  unfold process_cost_data; simpl.
  rewrite flat_map_keep. f_equal.
  apply filter_all. apply service_costs_of_gt.
Qed.

Lemma service_costs_of_grouped (costs_df : DataFrame) :
  service_costs_of (mask_cost costs_df)
  = sort_values_desc (groupby_sum Service (mask_cost costs_df)).
Proof.
  unfold service_costs_of. rewrite series_gt_id; [reflexivity|].
  apply mask_cost_above.
Qed.

(** The usage types of a service: the filter on the grouped series and the
    test in the comprehension drop nothing. *)
Lemma usage_items_grouped (df : DataFrame) (service : string) :
  Forall (fun r => cent < Cost r) df ->
  usage_items (service_usage_of df service)
  = map (fun kv => {| item_name := fst kv; item_cost := snd kv |})
        (sort_values_desc (groupby_sum UsageType (mask_service service df))).
Proof.
  intro Hdf. unfold usage_items, service_usage_of.
  rewrite series_gt_id by (apply mask_service_above; exact Hdf).
  f_equal. apply filter_all.
  apply sort_values_Forall.
  eapply Forall_impl;
    [|apply groupby_sum_above; apply mask_service_above; exact Hdf].
  intros kv Hkv. apply Qgtb_lt. exact Hkv.
Qed.

(** An entry of the report's services, traced back to its group. *)
Lemma services_In (costs_df : DataFrame) (s : ServiceData) :
  In s (services (process_cost_data costs_df)) ->
  exists sc,
    In sc (service_costs_of (mask_cost costs_df))
    /\ s = service_data (mask_cost costs_df)
             (totalCost (process_cost_data costs_df)) (fst sc) (snd sc)
    /\ snd sc = Qsum (map Cost (mask_service (fst sc) (mask_cost costs_df))).
Proof.
  rewrite services_of_report, in_map_iff. intros [sc [<- Hsc]].
  exists sc. split; [exact Hsc|]. split; [reflexivity|].
  rewrite service_costs_of_grouped in Hsc.
  rewrite sort_values_In in Hsc.
  apply groupby_sum_In in Hsc. destruct Hsc as [_ E]. exact E.
Qed.

(** C6.  In both loops that compute a service's percentage, the one of
    [process_cost_data] (lines 88-96) and the one of [main] (lines
    183-185), the divisor [total_cost] is above 0.01, so it is not zero. *)
Theorem percentage_divisor_above_cent (costs : list CostRecord)
    (service : string) (cost : Q) :
  In (service, cost) (service_costs_of (mask_cost costs)) ->
  Qgtb cost cent = true ->
  (cent < totalCost (process_cost_data costs)
   /\ ~ totalCost (process_cost_data costs) == 0)
  /\ In (service, cost) (main_service_costs costs)
  /\ cent < main_total_cost costs
  /\ ~ main_total_cost costs == 0.
Proof.
  intros Hin _.
  assert (Hgt : cent < series_sum (service_costs_of (mask_cost costs))).
  { unfold series_sum. apply Qsum_above.
    - exact cent_nonneg.
    - intro E. apply map_eq_nil in E. rewrite E in Hin. exact Hin.
    - apply Forall_map.
      eapply Forall_impl; [|apply service_costs_of_gt].
      intros sc Hsc. apply Qgtb_lt. exact Hsc. }
  assert (Hc : 0 <= cent) by exact cent_nonneg.
  split; [|split; [exact Hin|]].
  - change (totalCost (process_cost_data costs))
      with (series_sum (service_costs_of (mask_cost costs))).
    split; [exact Hgt | lra].
  - change (main_total_cost costs)
      with (series_sum (service_costs_of (mask_cost costs))).
    split; [exact Hgt | lra].
Qed.

(** ** The Aggregator: order *)

(** C7, as the code has it.  The services of the report are in descending
    order of cost: each cost is at least every later one.  So are the usage
    types of each service.  Among entries of equal cost the order is the
    one the library's sort leaves, whichever it is. *)
Theorem services_sorted_descending (costs_df : DataFrame) :
  let report := process_cost_data costs_df in
  descending (map service_cost (services report))
  /\ Forall (fun s => descending (map item_cost (service_usageTypes s)))
            (services report).
Proof.
  intro report. unfold report. split.
  - rewrite services_of_report, map_map. simpl.
    apply sort_values_desc_descending.
  - apply Forall_forall. intros s Hs.
    apply services_In in Hs. destruct Hs as [sc [_ [-> _]]]. simpl.
    rewrite usage_items_grouped by apply mask_cost_above.
    rewrite map_map. simpl. apply sort_values_desc_descending.
Qed.

(** ** The Fetcher *)

Lemma collect_Forall {A B} (P : B -> Prop) (f : A -> outcome (list B))
    (xs : list A) :
  (forall x ys, f x = Returned ys -> Forall P ys) ->
  forall l, collect f xs = Returned l -> Forall P l.
Proof.
  intro Hf. induction xs as [|x xs IH]; simpl; intros l Hl.
  - injection Hl as <-. constructor.
  - destruct (f x) as [ys|e] eqn:Ex; simpl in Hl; [|discriminate].
    destruct (collect f xs) as [rest|e] eqn:Er; simpl in Hl; [|discriminate].
    injection Hl as <-. apply Forall_app. split.
    + eapply Hf. exact Ex.
    + apply IH. reflexivity.
Qed.

Lemma collect_raises {A B} (P : exn -> Prop) (f : A -> outcome (list B))
    (xs : list A) :
  (forall x e, f x = Raised e -> P e) ->
  forall e, collect f xs = Raised e -> P e.
Proof.
  intro Hf. induction xs as [|x xs IH]; simpl; intros e He.
  - discriminate.
  - destruct (f x) as [ys|e'] eqn:Ex; simpl in He.
    + destruct (collect f xs) as [rest|e'']; simpl in He; [discriminate|].
      injection He as <-. apply IH. reflexivity.
    + injection He as <-. eapply Hf. exact Ex.
Qed.

Lemma group_records_positive (date : string) (group : Group)
    (rs : list CostRecord) :
  group_records date group = Returned rs -> Forall (fun r => 0 < Cost r) rs.
Proof.
  unfold group_records. destruct (Keys group) as [|service rest];
    [discriminate|].
  intro E. injection E as <-.
  destruct (Qgtb (Amount group) 0) eqn:G; constructor; [|constructor].
  simpl. apply Qgtb_lt. exact G.
Qed.

Lemma flatten_response_positive (response : Response)
    (costs : list CostRecord) :
  flatten_response response = Returned costs ->
  Forall (fun r => 0 < Cost r) costs.
Proof.
  unfold flatten_response. apply collect_Forall.
  intros result ys. apply collect_Forall.
  intros group rs. apply group_records_positive.
Qed.

(** The costs of the records, against the amounts of the response. *)
Lemma flatten_response_costs (response : Response)
    (costs : list CostRecord) :
  flatten_response response = Returned costs ->
  map Cost costs
  = filter (fun amount => Qgtb amount 0)
           (map Amount (flat_map Groups response)).
Proof.
  unfold flatten_response. revert costs.
  induction response as [|result response IH]; simpl; intros costs Hc.
  - injection Hc as <-. reflexivity.
  - destruct (collect (group_records (Start result)) (Groups result))
      as [ys|e] eqn:Ey; simpl in Hc; [|discriminate].
    destruct (collect _ response) as [rest|e] eqn:Er; simpl in Hc;
      [|discriminate].
    injection Hc as <-.
    rewrite !map_app, filter_app. f_equal; [|apply IH; reflexivity].
    clear -Ey. revert ys Ey.
    induction (Groups result) as [|g gs IHg]; simpl; intros ys Ey.
    + injection Ey as <-. reflexivity.
    + destruct (group_records (Start result) g) as [rs|e] eqn:Eg;
        simpl in Ey; [|discriminate].
      destruct (collect _ gs) as [rest|e] eqn:Er; simpl in Ey;
        [|discriminate].
      injection Ey as <-. rewrite map_app.
      rewrite (IHg rest eq_refl).
      unfold group_records in Eg. destruct (Keys g); [discriminate|].
      injection Eg as <-.
      destruct (Qgtb (Amount g) 0); reflexivity.
Qed.

(** What [get_cost_data] does, by what the client and the API do. *)
Lemma flatten_response_raises_IndexError (response : Response) (x : exn) :
  flatten_response response = Raised x -> x = IndexError.
Proof.
  unfold flatten_response.
  apply (collect_raises (fun e => e = IndexError)).
  intros result x'. apply (collect_raises (fun e => e = IndexError)).
  intros group x''. unfold group_records.
  destruct (Keys group); [|discriminate].
  intro E. injection E as <-. reflexivity.
Qed.

Lemma get_cost_data_client_raises (env : Env) (s e : string) (x : exn) :
  boto3_client env = Raised x ->
  get_cost_data env s e = (fetch_raised, Raised x).
Proof.
  intro Hc. unfold get_cost_data, with_progress, lift, bind, emit.
  rewrite Hc. reflexivity.
Qed.

Lemma get_cost_data_api_returns (env : Env) (s e : string)
    (response : Response) :
  boto3_client env = Returned tt ->
  get_cost_and_usage env s e = Returned response ->
  get_cost_data env s e
  = (match flatten_response response with
     | Returned _ => fetch_returned
     | Raised _ => fetch_raised
     end,
     flatten_response response).
Proof.
  intros Hc Ha.
  unfold get_cost_data, with_progress, lift, bind, emit,
    try_except_ClientError.
  rewrite Hc, Ha. simpl.
  destruct (flatten_response response) as [costs|x] eqn:Ef; simpl.
  - reflexivity.
  - rewrite (flatten_response_raises_IndexError response x Ef).
    reflexivity.
Qed.

Lemma get_cost_data_client_error (env : Env) (s e msg : string) :
  boto3_client env = Returned tt ->
  get_cost_and_usage env s e = Raised (ClientError msg) ->
  get_cost_data env s e = (fetch_caught msg, Returned []).
Proof.
  intros Hc Ha.
  unfold get_cost_data, with_progress, lift, bind, emit,
    try_except_ClientError.
  rewrite Hc, Ha. reflexivity.
Qed.

Lemma get_cost_data_api_raises (env : Env) (s e : string) (x : exn) :
  boto3_client env = Returned tt ->
  get_cost_and_usage env s e = Raised x ->
  (forall msg, x <> ClientError msg) ->
  get_cost_data env s e = (fetch_raised, Raised x).
Proof.
  intros Hc Ha Hx.
  unfold get_cost_data, with_progress, lift, bind, emit,
    try_except_ClientError.
  rewrite Hc, Ha. simpl.
  destruct x; try reflexivity. exfalso. eapply Hx. reflexivity.
Qed.

(** The three ways the fetch ends: an exception leaves it; it returns the
    records of a response; it returns no records after a [ClientError]. *)
Lemma get_cost_data_cases (env : Env) (s e : string) :
  (exists x, get_cost_data env s e = (fetch_raised, Raised x))
  \/ (exists costs, get_cost_data env s e = (fetch_returned, Returned costs))
  \/ (exists msg, get_cost_data env s e = (fetch_caught msg, Returned [])).
Proof.
  destruct (boto3_client env) as [[]|x] eqn:Hc.
  - destruct (get_cost_and_usage env s e) as [response|x] eqn:Ha.
    + rewrite (get_cost_data_api_returns env s e response Hc Ha).
      destruct (flatten_response response) as [costs|x] eqn:Ef.
      * right. left. exists costs. reflexivity.
      * left. exists x. reflexivity.
    + destruct x as [msg| | | | |] eqn:Ex.
      * right. right. exists msg.
        apply get_cost_data_client_error; assumption.
      * left. eexists.
        apply get_cost_data_api_raises; [eassumption..|discriminate].
      * left. eexists.
        apply get_cost_data_api_raises; [eassumption..|discriminate].
      * left. eexists.
        apply get_cost_data_api_raises; [eassumption..|discriminate].
      * left. eexists.
        apply get_cost_data_api_raises; [eassumption..|discriminate].
      * left. eexists.
        apply get_cost_data_api_raises; [eassumption..|discriminate].
  - left. exists x. apply get_cost_data_client_raises. exact Hc.
Qed.

(** ** [main] after the fetch *)

Lemma main_start_raised (args : Args) (env : Env) (x : exn) :
  start_date_of env (days args) = Raised x ->
  main args env = ([], Raised x).
Proof.
  intro Hs. unfold main, lift, bind. rewrite Hs. reflexivity.
Qed.

Lemma main_fetch_raised (args : Args) (env : Env) (start_date : string)
    (t : list event) (x : exn) :
  start_date_of env (days args) = Returned start_date ->
  get_cost_data env start_date (end_date_of env) = (t, Raised x) ->
  main args env
  = (header_of args start_date (end_date_of env) ++ t, Raised x).
Proof.
  intros Hs Hg. unfold main, header_of, lift. rewrite Hs.
  destruct (json_flag args); cbn -[get_cost_data]; rewrite Hg; reflexivity.
Qed.

Lemma main_fetch_empty (args : Args) (env : Env) (start_date : string)
    (t : list event) :
  start_date_of env (days args) = Returned start_date ->
  get_cost_data env start_date (end_date_of env) = (t, Returned []) ->
  main args env
  = (header_of args start_date (end_date_of env) ++ t
     ++ [if json_flag args
         then Print no_data_document
         else ConsolePrint no_data_notice],
     Returned tt).
Proof.
  intros Hs Hg. unfold main, header_of, lift. rewrite Hs.
  destruct (json_flag args); cbn -[get_cost_data]; rewrite Hg; reflexivity.
Qed.

Lemma main_fetch_json (args : Args) (env : Env) (start_date : string)
    (t : list event) (c : CostRecord) (costs : list CostRecord) :
  json_flag args = true ->
  start_date_of env (days args) = Returned start_date ->
  get_cost_data env start_date (end_date_of env)
  = (t, Returned (c :: costs)) ->
  main args env
  = (t ++ [Print (json_of_report (process_cost_data (c :: costs)))],
     Returned tt).
Proof.
  intros Hj Hs Hg. unfold main, lift. rewrite Hs, Hj.
  cbn -[get_cost_data process_cost_data]. rewrite Hg. reflexivity.
Qed.

Lemma no_table_app (t1 t2 : list event) :
  no_table t1 -> no_table t2 -> no_table (t1 ++ t2).
Proof.
  intros H1 H2 title rows Hin. apply in_app_or in Hin.
  destruct Hin as [Hin | Hin]; [eapply H1 | eapply H2]; exact Hin.
Qed.

Lemma no_table_fetch (env : Env) (s e : string) :
  no_table (fst (get_cost_data env s e)).
Proof.
  intros title rows.
  destruct (get_cost_data_cases env s e)
    as [[x ->] | [[costs ->] | [msg ->]]]; simpl;
    intuition discriminate.
Qed.

(** ** The Fetcher's threshold *)

(** C1, as the code has it.  The Fetcher's test is [cost > 0]: of the
    amounts of the response it returns exactly those above 0, in order, so
    no record with cost <= 0 is returned.  Records with 0 < cost <= 0.01 are
    returned; the Aggregator's first filter, with the constant 0.01, is
    what drops them. *)
Theorem fetcher_keeps_positive_costs (env : Env) (s e : string)
    (response : Response) (t : list event) (costs : list CostRecord) :
  get_cost_and_usage env s e = Returned response ->
  get_cost_data env s e = (t, Returned costs) ->
  map Cost costs
  = filter (fun amount => Qgtb amount 0)
           (map Amount (flat_map Groups response))
  /\ Forall (fun r => 0 < Cost r) costs
  /\ Forall (fun r => cent < Cost r) (mask_cost costs).
Proof.
  intros Ha Hg.
  destruct (boto3_client env) as [[]|x] eqn:Hc.
  - rewrite (get_cost_data_api_returns env s e response Hc Ha) in Hg.
    injection Hg as _ Hf.
    split; [apply flatten_response_costs; exact Hf|].
    split; [apply flatten_response_positive with response; exact Hf|].
    apply mask_cost_above.
  - rewrite (get_cost_data_client_raises env s e x Hc) in Hg. discriminate.
Qed.

(** ** No data *)

(** C2, as the code has it.  When the fetch yields no records, [main]
    writes, after what the fetch wrote (the progress indicator, and within
    it the console's error line when the call raised a [ClientError]): in
    machine mode the document [{"error": "No cost data found"}], in human
    mode the notice; no table in either mode. *)
Theorem empty_fetch_reports_no_data (args : Args) (env : Env)
    (start_date : string) (t : list event) :
  start_date_of env (days args) = Returned start_date ->
  get_cost_data env start_date (end_date_of env) = (t, Returned []) ->
  main args env
  = (header_of args start_date (end_date_of env) ++ t
     ++ [if json_flag args
         then Print (JObj [("error"%string, JStr "No cost data found")])
         else ConsolePrint "[red]No cost data found or error occurred.[/red]"],
     Returned tt)
  /\ no_table (fst (main args env))
  /\ (t = fetch_returned \/ exists msg, t = fetch_caught msg).
Proof.
  intros Hs Hg. pose proof (main_fetch_empty args env start_date t Hs Hg) as Hm.
  split; [exact Hm|]. split.
  - rewrite Hm. simpl. apply no_table_app.
    + unfold header_of. destruct (json_flag args).
      * intros title rows [].
      * intros title rows [E | []]. discriminate.
    + apply no_table_app.
      * pose proof (no_table_fetch env start_date (end_date_of env)) as Hn.
        rewrite Hg in Hn. exact Hn.
      * intros title rows [E | []]. destruct (json_flag args); discriminate.
  - destruct (get_cost_data_cases env start_date (end_date_of env))
      as [[x E] | [[costs E] | [msg E]]]; rewrite Hg in E.
    + discriminate.
    + left. injection E as -> _. reflexivity.
    + right. exists msg. injection E as ->. reflexivity.
Qed.

(** ** Failures of the fetch *)


(** ** Only small costs *)

Lemma process_cost_data_mask (costs1 costs2 : DataFrame) :
  mask_cost costs1 = mask_cost costs2 ->
  process_cost_data costs1 = process_cost_data costs2.
Proof.
  intro E. unfold process_cost_data. rewrite E. reflexivity.
Qed.

Lemma sort_values_nil (K : Type) : sort_values_desc (@nil (K * Q)) = [].
Proof.
  apply Permutation_nil. apply sort_values_perm.
Qed.

Lemma process_cost_data_nil :
  process_cost_data []
  = {| totalCost := 0; services := []; dailyCosts := [] |}.
Proof.
  unfold process_cost_data, service_costs_of. simpl.
  rewrite sort_values_nil. reflexivity.
Qed.

Lemma process_cost_data_small (costs_df : DataFrame) :
  Forall (fun r => Cost r <= cent) costs_df ->
  process_cost_data costs_df
  = {| totalCost := 0; services := []; dailyCosts := [] |}.
Proof.
  intro Hs. rewrite <- process_cost_data_nil.
  apply process_cost_data_mask.
  unfold mask_cost. simpl. apply filter_none.
  eapply Forall_impl; [|exact Hs].
  intros r Hr. apply Qgtb_false. exact Hr.
Qed.

(** C9.  A fetch that returns records, none above 0.01, does not lead to
    the "no data" document: machine mode prints the report with
    [totalCost] 0 and no services and no daily costs. *)
Theorem small_costs_give_empty_report (args : Args) (env : Env)
    (start_date : string) (t : list event) (c : CostRecord)
    (costs : list CostRecord) :
  json_flag args = true ->
  start_date_of env (days args) = Returned start_date ->
  get_cost_data env start_date (end_date_of env)
  = (t, Returned (c :: costs)) ->
  Forall (fun r => Cost r <= cent) (c :: costs) ->
  main args env
  = (t ++ [Print (json_of_report
                    {| totalCost := 0; services := []; dailyCosts := [] |})],
     Returned tt)
  /\ json_of_report {| totalCost := 0; services := []; dailyCosts := [] |}
     <> no_data_document.
Proof.
  intros Hj Hd Hg Hs. split.
  - rewrite (main_fetch_json args env start_date t c costs Hj Hd Hg).
    rewrite (process_cost_data_small _ Hs). reflexivity.
  - discriminate.
Qed.

(** ** The two output modes *)

Lemma for_each_emit {A} (p : A -> bool) (f : A -> list event)
    (body : A -> M unit) (xs : list A) :
  (forall x, body x = (if p x then f x else [], Returned tt)) ->
  for_each xs body
  = (flat_map (fun x => if p x then f x else []) xs, Returned tt).
Proof.
  intro Hb. induction xs as [|x xs IH]; simpl.
  - reflexivity.
  - unfold bind. rewrite Hb, IH. reflexivity.
Qed.

(** The inline aggregation of [main] is that of [process_cost_data]. *)
Lemma main_df_mask (costs : list CostRecord) : main_df costs = mask_cost costs.
Proof. reflexivity. Qed.

Lemma main_service_costs_report (costs : list CostRecord) :
  main_service_costs costs
  = map (fun s => (service_name s, service_cost s))
        (services (process_cost_data costs)).
Proof.
  rewrite services_of_report, map_map. simpl.
  rewrite <- (map_id (main_service_costs costs)) at 1.
  apply map_ext. intros [service cost]. reflexivity.
Qed.

Lemma main_total_cost_report (costs : list CostRecord) :
  main_total_cost costs = totalCost (process_cost_data costs).
Proof. reflexivity. Qed.

(** The table of one service, from the service's entry in the report. *)
Lemma usage_table_of_service (df : DataFrame) (total_cost : Q)
    (service : string) (cost : Q) :
  Forall (fun r => cent < Cost r) df ->
  usage_table df service cost
  = ConsoleTable (service ++ " Usage Types")%string
      (map (usage_row (service_data df total_cost service cost))
           (service_usageTypes (service_data df total_cost service cost))).
Proof.
  intro Hdf. unfold usage_table. f_equal. simpl.
  rewrite flat_map_keep.
  unfold usage_items, service_usage_of.
  rewrite series_gt_id by (apply mask_service_above; exact Hdf).
  rewrite map_map. reflexivity.
Qed.

Lemma usage_tables_of_services (df : DataFrame) (total_cost : Q)
    (service_costs : Series string) :
  Forall (fun r => cent < Cost r) df ->
  Forall (fun sc => Qgtb (snd sc) cent = true) service_costs ->
  flat_map (fun sc =>
              if Qgtb (snd sc) cent
              then [usage_table df (fst sc) (snd sc); ConsoleBlank]
              else [])
           service_costs
  = flat_map (fun s =>
                [ConsoleTable (service_name s ++ " Usage Types")%string
                   (map (usage_row s) (service_usageTypes s));
                 ConsoleBlank])
             (map (fun sc => service_data df total_cost (fst sc) (snd sc))
                  service_costs).
Proof.
  intros Hdf. induction 1 as [|sc l Hsc _ IH]; simpl.
  - reflexivity.
  - rewrite Hsc, IH.
    rewrite (usage_table_of_service df total_cost) by exact Hdf.
    reflexivity.
Qed.

(** What human mode prints is the presentation of the Aggregator's
    report. *)
Lemma print_tables_present (costs : list CostRecord) :
  print_tables costs
  = (present_report (process_cost_data costs), Returned tt).
Proof.
  unfold print_tables.
  rewrite (for_each_emit
             (fun sc => Qgtb (snd sc) cent)
             (fun sc => [usage_table (main_df costs) (fst sc) (snd sc);
                         ConsoleBlank])).
  2:{ intros sc. destruct (Qgtb (snd sc) cent); reflexivity. }
  unfold bind, emit. cbv iota beta.
  unfold present_report. rewrite services_of_report.
  change (main_df costs) with (mask_cost costs).
  change (main_service_costs costs) with (service_costs_of (mask_cost costs)).
  change (main_total_cost costs) with (totalCost (process_cost_data costs)).
  rewrite (usage_tables_of_services (mask_cost costs)
             (totalCost (process_cost_data costs)))
    by (apply mask_cost_above || apply service_costs_of_gt).
  rewrite flat_map_keep, map_map.
  rewrite filter_all by apply service_costs_of_gt.
  reflexivity.
Qed.

(** C10, as the code has it.  The aggregation inline in [main] retains the
    same records as [process_cost_data], and computes the same services
    with the same totals in the same order and the same overall total; what
    human mode prints is the presentation of the Aggregator's report: the
    services with the report's costs and percentages, and per service the
    usage types with the report's names and costs.  The percentage of a
    usage type is computed in human mode only, as its cost over the cost of
    its service. *)
Theorem human_mode_presents_report (costs : list CostRecord) :
  main_df costs = mask_cost costs
  /\ main_service_costs costs
     = map (fun s => (service_name s, service_cost s))
           (services (process_cost_data costs))
  /\ main_total_cost costs = totalCost (process_cost_data costs)
  /\ print_tables costs
     = (present_report (process_cost_data costs), Returned tt).
Proof.
  split; [apply main_df_mask|].
  split; [apply main_service_costs_report|].
  split; [apply main_total_cost_report|].
  apply print_tables_present.
Qed.

(** ** The Aggregator on objects *)

Lemma modify_app_r (st0 l : Store) (k : nat) (f : object -> object) :
  modify (List.length st0 + k)%nat f (st0 ++ l) = (st0 ++ modify k f l)%list.
Proof.
  induction st0 as [|o st0 IH]; simpl.
  - reflexivity.
  - rewrite IH. destruct l; reflexivity.
Qed.

Lemma nth_extends (st ext : Store) (p : ref) (d : object) :
  (p < List.length st)%nat -> nth p (st ++ ext) d = nth p st d.
Proof. intro Hp. apply app_nth1. exact Hp. Qed.

Lemma nth_last (st : Store) (o d : object) :
  nth (List.length st) (st ++ [o]) d = o.
Proof. apply nth_middle. Qed.

Lemma running_alloc (st0 : Store) (df : DataFrame)
    (sl : list ServiceData) (dl : list DayData) (frames : Store)
    (o : object) :
  (running st0 df sl dl frames ++ [o])%list
  = running st0 df sl dl (frames ++ [o]).
Proof.
  unfold running. rewrite <- app_assoc. reflexivity.
Qed.

Lemma running_frame (st0 : Store) (df : DataFrame)
    (sl : list ServiceData) (dl : list DayData) (frames : Store) :
  nth (List.length st0) (running st0 df sl dl frames) (FrameObject [])
  = FrameObject df.
Proof. unfold running. apply nth_middle. Qed.

Lemma running_append_service (st0 : Store) (df : DataFrame)
    (sl : list ServiceData) (dl : list DayData) (frames : Store)
    (s : ServiceData) :
  append_service (S (List.length st0)) s (running st0 df sl dl frames)
  = (tt, running st0 df (sl ++ [s]) dl frames).
Proof.
  unfold append_service, update, running. f_equal.
  rewrite <- (Nat.add_1_r (List.length st0)).
  rewrite modify_app_r. reflexivity.
Qed.

Lemma running_append_day (st0 : Store) (df : DataFrame)
    (sl : list ServiceData) (dl : list DayData) (frames : Store)
    (d : DayData) :
  append_day (S (S (List.length st0))) d (running st0 df sl dl frames)
  = (tt, running st0 df sl (dl ++ [d]) frames).
Proof.
  unfold append_day, update, running. f_equal.
  replace (S (S (List.length st0))) with (List.length st0 + 2)%nat by lia.
  rewrite modify_app_r. reflexivity.
Qed.

(** One turn of the loop over the services appends to the list of the
    result the entry that [service_data] describes, and adds one frame. *)
Lemma service_step_run (st0 : Store) (df : DataFrame) (total_cost : Q)
    (sc : string * Q) (sl : list ServiceData) (dl : list DayData)
    (frames : Store) :
  exists frames',
    service_step (List.length st0) (S (List.length st0)) total_cost sc
      (running st0 df sl dl frames)
    = (tt,
       running st0 df
         (sl ++ (if Qgtb (snd sc) cent
                 then [service_data df total_cost (fst sc) (snd sc)]
                 else []))
         dl frames').
Proof.
  unfold service_step. destruct (Qgtb (snd sc) cent).
  - exists (frames
            ++ [FrameObject
                  (filter (fun r => String.eqb (Service r) (fst sc)) df)]).
    unfold st_bind at 1. unfold getitem, st_bind, fetch, alloc.
    rewrite running_frame. simpl rows_of.
    unfold groupby_sum_at, st_bind, fetch, st_ret.
    rewrite nth_last. simpl rows_of.
    rewrite running_alloc. apply running_append_service.
  - exists frames. unfold st_ret. rewrite app_nil_r. reflexivity.
Qed.

Lemma services_loop_run (st0 : Store) (df : DataFrame) (total_cost : Q)
    (service_costs : Series string) (sl : list ServiceData)
    (dl : list DayData) (frames : Store) :
  exists frames',
    st_each service_costs
      (service_step (List.length st0) (S (List.length st0)) total_cost)
      (running st0 df sl dl frames)
    = (tt,
       running st0 df
         (sl ++ flat_map (fun sc =>
                            if Qgtb (snd sc) cent
                            then [service_data df total_cost (fst sc) (snd sc)]
                            else [])
                         service_costs)
         dl frames').
Proof.
  revert sl frames. induction service_costs as [|sc l IH];
    intros sl frames; simpl.
  - exists frames. unfold st_ret. rewrite app_nil_r. reflexivity.
  - destruct (service_step_run st0 df total_cost sc sl dl frames)
      as [frames1 E1].
    destruct (IH (sl ++ (if Qgtb (snd sc) cent
                         then [service_data df total_cost (fst sc) (snd sc)]
                         else []))
                 frames1) as [frames2 E2].
    exists frames2. unfold st_bind. rewrite E1, E2.
    rewrite <- app_assoc. reflexivity.
Qed.

Lemma days_loop_run (st0 : Store) (df : DataFrame)
    (daily_costs : Series (string * string)) (dates : list string)
    (sl : list ServiceData) (dl : list DayData) (frames : Store) :
  st_each dates
    (fun date => append_day (S (S (List.length st0)))
                   (day_data daily_costs date))
    (running st0 df sl dl frames)
  = (tt, running st0 df sl (dl ++ map (day_data daily_costs) dates) frames).
Proof.
  revert dl. induction dates as [|date dates IH]; intro dl; simpl.
  - unfold st_ret. rewrite app_nil_r. reflexivity.
  - unfold st_bind. rewrite running_append_day, IH.
    rewrite <- app_assoc. reflexivity.
Qed.

Lemma st_bind_run {A B} (m : ST A) (f : A -> ST B) (st st' : Store)
    (a : A) :
  m st = (a, st') -> st_bind m f st = f a st'.
Proof. intro E. unfold st_bind. rewrite E. reflexivity. Qed.

Lemma groupby_sum_at_frame {K} `{Key K} (key : CostRecord -> K) (p : ref)
    (st : Store) (rows : DataFrame) :
  nth p st (FrameObject []) = FrameObject rows ->
  groupby_sum_at key p st = (groupby_sum key rows, st).
Proof.
  intro E. unfold groupby_sum_at, st_bind, fetch, st_ret. rewrite E.
  reflexivity.
Qed.

Lemma running_service_list (st0 : Store) (df : DataFrame)
    (sl : list ServiceData) (dl : list DayData) (frames : Store) :
  fetch (S (List.length st0)) (running st0 df sl dl frames)
  = (ServiceList sl, running st0 df sl dl frames).
Proof.
  unfold fetch, running. f_equal.
  rewrite <- (Nat.add_1_r (List.length st0)).
  rewrite app_nth2_plus. reflexivity.
Qed.

Lemma running_day_list (st0 : Store) (df : DataFrame)
    (sl : list ServiceData) (dl : list DayData) (frames : Store) :
  fetch (S (S (List.length st0))) (running st0 df sl dl frames)
  = (DayList dl, running st0 df sl dl frames).
Proof.
  unfold fetch, running. f_equal.
  replace (S (S (List.length st0))) with (List.length st0 + 2)%nat by lia.
  rewrite app_nth2_plus. reflexivity.
Qed.

Lemma running_start (st : Store) (df : DataFrame) :
  (((st ++ [FrameObject df]) ++ [ServiceList []]) ++ [DayList []])%list
  = running st df [] [] [].
Proof. unfold running. rewrite <- !app_assoc. reflexivity. Qed.

Ltac st_step E :=
  match goal with
  | |- st_bind ?m ?f ?st = _ => rewrite (st_bind_run m f st _ _ E); cbv beta
  end.

(** Run on a reference into the caller's store, the function returns the
    report of that frame's rows and leaves the caller's objects in front
    of those it has created. *)
Lemma process_cost_data_at_run (costs_df : ref) (st : Store) :
  exists created,
    process_cost_data_at costs_df st
    = (process_cost_data (rows_of (nth costs_df st (FrameObject []))),
       (st ++ created)%list).
Proof.
  set (rows := rows_of (nth costs_df st (FrameObject []))).
  set (df := mask_cost rows).
  set (service_costs := service_costs_of df).
  set (total_cost := series_sum service_costs).
  set (daily_costs := groupby_sum (fun r => (Date r, Service r)) df).
  set (dates := sort_by String.leb
                  (unique (map (fun row => fst (fst row)) daily_costs))).
  destruct (services_loop_run st df total_cost service_costs [] [] [])
    as [frames E].
  exists (FrameObject df
          :: ServiceList
               (flat_map (fun sc =>
                            if Qgtb (snd sc) cent
                            then [service_data df total_cost (fst sc) (snd sc)]
                            else [])
                         service_costs)
          :: DayList (map (day_data daily_costs) dates) :: frames).
  simpl app in E.
  set (sl := flat_map (fun sc =>
                         if Qgtb (snd sc) cent
                         then [service_data df total_cost (fst sc) (snd sc)]
                         else [])
                      service_costs) in *.
  unfold process_cost_data_at.
  assert (E1 : getitem costs_df (fun r => Qgtb (Cost r) cent) st
               = (List.length st, (st ++ [FrameObject df])%list))
    by reflexivity.
  st_step E1.
  st_step (groupby_sum_at_frame Service (List.length st)
             (st ++ [FrameObject df]) df (nth_last st _ _)).
  assert (E2 : alloc (ServiceList []) (st ++ [FrameObject df])%list
               = (S (List.length st),
                  ((st ++ [FrameObject df]) ++ [ServiceList []])%list)).
  { unfold alloc. rewrite length_app, Nat.add_1_r. reflexivity. }
  st_step E2.
  assert (E3 : alloc (DayList [])
                 ((st ++ [FrameObject df]) ++ [ServiceList []])%list
               = (S (S (List.length st)), running st df [] [] [])).
  { unfold alloc. rewrite !length_app, !Nat.add_1_r, running_start.
    reflexivity. }
  st_step E3.
  st_step E.
  st_step (groupby_sum_at_frame (fun r => (Date r, Service r))
             (List.length st) (running st df sl [] frames) df
             (running_frame st df sl [] frames)).
  st_step (days_loop_run st df daily_costs dates
             sl
             [] frames).
  st_step (running_service_list st df
             sl
             ([] ++ map (day_data daily_costs) dates) frames).
  st_step (running_day_list st df
             sl
             ([] ++ map (day_data daily_costs) dates) frames).
  reflexivity.
Qed.

(** C8.  Calling the Aggregator twice on the same frame gives identical
    reports: each call returns the report that is a function of the
    frame's rows, and though the function appends to the lists it creates,
    it leaves every object of the caller's store as it was. *)
Theorem aggregate_twice_same_report (costs_df : ref) (st : Store) :
  (costs_df < List.length st)%nat ->
  let (report1, st1) := process_cost_data_at costs_df st in
  let (report2, st2) := process_cost_data_at costs_df st1 in
  report1 = report2
  /\ report1
     = process_cost_data (rows_of (nth costs_df st (FrameObject [])))
  /\ forall p : ref,
       (p < List.length st)%nat ->
       nth p st2 (FrameObject []) = nth p st (FrameObject []).
Proof.
  intro Hin.
  destruct (process_cost_data_at_run costs_df st) as [e1 E1]. rewrite E1.
  destruct (process_cost_data_at_run costs_df (st ++ e1)) as [e2 E2].
  rewrite E2. rewrite nth_extends by exact Hin.
  split; [reflexivity|]. split; [reflexivity|].
  intros p Hp. rewrite <- app_assoc. apply nth_extends. exact Hp.
Qed.

(** * Further properties of the pipeline *)

(** ** The order of strings and of pairs of strings *)

Lemma string_leb_iff (a b : string) :
  String.leb a b = true <-> a = b \/ OrderedTypeEx.String_as_OT.lt a b.
Proof.
  unfold String.leb.
  destruct (String.compare a b) eqn:E.
  - apply OrderedTypeEx.String_as_OT.cmp_eq in E. tauto.
  - apply OrderedTypeEx.String_as_OT.cmp_lt in E. tauto.
  - split; [discriminate|]. intros [-> | L].
    + assert (X : String.compare b b = Eq)
        by (apply OrderedTypeEx.String_as_OT.cmp_eq; reflexivity).
      congruence.
    + apply OrderedTypeEx.String_as_OT.cmp_lt in L.
      unfold OrderedTypeEx.String_as_OT.cmp in L. congruence.
Qed.

Lemma string_ltb_iff (a b : string) :
  String.ltb a b = true <-> OrderedTypeEx.String_as_OT.lt a b.
Proof.
  unfold String.ltb. rewrite <- OrderedTypeEx.String_as_OT.cmp_lt.
  unfold OrderedTypeEx.String_as_OT.cmp.
  destruct (String.compare a b); split; congruence.
Qed.

Lemma string_ltb_irrefl (a : string) : String.ltb a a = false.
Proof.
  destruct (String.ltb a a) eqn:E; [|reflexivity].
  apply string_ltb_iff in E.
  exfalso. eapply OrderedTypeEx.String_as_OT.lt_not_eq; [exact E|].
  reflexivity.
Qed.

Lemma string_leb_trans (a b c : string) :
  String.leb a b = true -> String.leb b c = true -> String.leb a c = true.
Proof.
  rewrite !string_leb_iff. intros [-> | Hab] [-> | Hbc]; auto.
  right. eapply OrderedTypeEx.String_as_OT.lt_trans; eassumption.
Qed.

Lemma string_leb_ltb (a b : string) :
  String.leb a b = true -> a <> b -> String.ltb a b = true.
Proof.
  rewrite string_leb_iff, string_ltb_iff. intros [-> | L] N; congruence.
Qed.

Lemma pair_leb_total (a b : string * string) :
  pair_leb a b = true \/ pair_leb b a = true.
Proof.
  destruct a as [a1 a2], b as [b1 b2]. unfold pair_leb; simpl.
  destruct (String.eqb_spec a1 b1) as [-> | N].
  - rewrite String.eqb_refl, string_ltb_irrefl. simpl.
    apply String.leb_total.
  - destruct (String.leb_total a1 b1) as [L | L].
    + left. rewrite (string_leb_ltb _ _ L N). reflexivity.
    + right. rewrite (string_leb_ltb _ _ L) by congruence. reflexivity.
Qed.

Lemma pair_leb_trans (a b c : string * string) :
  pair_leb a b = true -> pair_leb b c = true -> pair_leb a c = true.
Proof.
  destruct a as [a1 a2], b as [b1 b2], c as [c1 c2].
  unfold pair_leb; simpl. rewrite !orb_true_iff, !andb_true_iff.
  rewrite !String.eqb_eq, !string_ltb_iff.
  intros [L1 | [-> E1]] [L2 | [-> E2]].
  - left. eapply OrderedTypeEx.String_as_OT.lt_trans; eassumption.
  - left. exact L1.
  - left. exact L2.
  - right. split; [reflexivity|]. eapply string_leb_trans; eassumption.
Qed.

(** Among the pairs of one first component, the order is that of the
    second. *)
Lemma pair_leb_same_fst (d a b : string) :
  pair_leb (d, a) (d, b) = String.leb a b.
Proof.
  unfold pair_leb; simpl.
  rewrite string_ltb_irrefl, String.eqb_refl. reflexivity.
Qed.

(** Distinct strings in order are in strictly ascending order. *)
Lemma ascending_of_sorted (names : list string) :
  StronglySorted (fun a b => String.leb a b = true) names ->
  NoDup names -> ascending names.
Proof.
  induction 1 as [|x l Hs IH Hx]; intro Hnd.
  - constructor.
  - inversion Hnd as [|? ? Hnot Hnd']; subst.
    constructor; [apply IH; exact Hnd'|].
    apply Forall_forall. intros y Hy.
    rewrite Forall_forall in Hx.
    apply string_leb_ltb; [apply Hx; exact Hy|].
    intros ->. contradiction.
Qed.

(** ** Keys of a grouped series *)

Lemma groupby_keys {K} `{Key K} (key : CostRecord -> K) (df : DataFrame) :
  map fst (groupby_sum key df) = sort_by key_leb (unique (map key df)).
Proof.
  unfold groupby_sum. rewrite map_map. simpl. apply map_id.
Qed.

Lemma groupby_key_In {K} `{KeyOk K} (key : CostRecord -> K)
    (df : DataFrame) (k : K) :
  In k (map fst (groupby_sum key df)) <-> In k (map key df).
Proof.
  rewrite groupby_keys, sort_by_In. apply unique_In.
Qed.

Lemma service_names_of_report (costs_df : DataFrame) :
  map service_name (services (process_cost_data costs_df))
  = map fst (sort_values_desc (groupby_sum Service (mask_cost costs_df))).
Proof.
  rewrite services_of_report, map_map, service_costs_of_grouped.
  reflexivity.
Qed.

(** ** The services of the report *)

(** X1. Each service that has a record above 0.01 is in the report, once,
    and the report has no other service. *)
Theorem report_lists_each_retained_service_once (costs_df : DataFrame) :
  NoDup (map service_name (services (process_cost_data costs_df)))
  /\ forall name : string,
       In name (map service_name (services (process_cost_data costs_df)))
       <-> exists r, In r costs_df /\ cent < Cost r /\ Service r = name.
Proof.
  rewrite service_names_of_report.
  assert (P : Permutation
                (map fst (groupby_sum Service (mask_cost costs_df)))
                (map fst (sort_values_desc
                            (groupby_sum Service (mask_cost costs_df))))).
  { apply Permutation_map. apply sort_values_perm. }
  split.
  - eapply Permutation_NoDup; [exact P | apply group_keys_NoDup].
  - intro name.
    rewrite <- (Permutation_in' (eq_refl name) P).
    rewrite groupby_key_In, in_map_iff. unfold mask_cost.
    split.
    + intros [r [E Hr]]. apply filter_In in Hr. destruct Hr as [Hr G].
      exists r. apply Qgtb_lt in G. tauto.
    + intros [r [Hr [G E]]]. exists r. split; [exact E|].
      apply filter_In. split; [exact Hr|]. apply Qgtb_lt. exact G.
Qed.

(** The usage types of a service entry, as a grouped series. *)
Lemma usage_names_of_service (df : DataFrame) (service : string) :
  Forall (fun r => cent < Cost r) df ->
  map item_name (usage_items (service_usage_of df service))
  = map fst (sort_values_desc
               (groupby_sum UsageType (mask_service service df))).
Proof.
  intro Hdf. rewrite usage_items_grouped by exact Hdf.
  rewrite map_map. reflexivity.
Qed.

(** X2. Each service of the report lists at least one usage type, each usage
    type once: those of the service's records above 0.01. *)
Theorem service_lists_each_usage_type_once (costs_df : DataFrame)
    (s : ServiceData) :
  In s (services (process_cost_data costs_df)) ->
  service_usageTypes s <> []
  /\ NoDup (map item_name (service_usageTypes s))
  /\ forall name : string,
       In name (map item_name (service_usageTypes s))
       <-> exists r, In r costs_df /\ cent < Cost r
                     /\ Service r = service_name s /\ UsageType r = name.
Proof.
  intro Hs. apply services_In in Hs. destruct Hs as [sc [Hsc [-> _]]].
  simpl.
  pose proof (mask_cost_above costs_df) as Hdf.
  assert (P : Permutation
                (map fst (groupby_sum UsageType
                            (mask_service (fst sc) (mask_cost costs_df))))
                (map item_name
                     (usage_items (service_usage_of (mask_cost costs_df)
                                                    (fst sc))))).
  { rewrite usage_names_of_service by exact Hdf.
    apply Permutation_map. apply sort_values_perm. }
  assert (Hin : forall name,
             In name (map item_name
                        (usage_items (service_usage_of (mask_cost costs_df)
                                                       (fst sc))))
             <-> exists r, In r costs_df /\ cent < Cost r
                           /\ Service r = fst sc /\ UsageType r = name).
  { intro name. rewrite <- (Permutation_in' (eq_refl name) P).
    rewrite groupby_key_In, in_map_iff. unfold mask_service, mask_cost.
    split.
    - intros [r [E Hr]]. apply filter_In in Hr. destruct Hr as [Hr S].
      apply filter_In in Hr. destruct Hr as [Hr G].
      apply String.eqb_eq in S. apply Qgtb_lt in G. exists r. tauto.
    - intros [r [Hr [G [S E]]]]. exists r. split; [exact E|].
      apply filter_In. split; [|apply String.eqb_eq; exact S].
      apply filter_In. split; [exact Hr|]. apply Qgtb_lt. exact G. }
  split; [|split].
  - (* the service has a retained record, hence a usage type *)
    rewrite service_costs_of_grouped in Hsc.
    rewrite sort_values_In in Hsc.
    apply (in_map fst) in Hsc. apply groupby_key_In in Hsc.
    apply in_map_iff in Hsc. destruct Hsc as [r [E Hr]].
    unfold mask_cost in Hr. apply filter_In in Hr. destruct Hr as [Hr G].
    apply Qgtb_lt in G.
    assert (Hu : In (UsageType r)
                    (map item_name
                       (usage_items (service_usage_of (mask_cost costs_df)
                                                      (fst sc))))).
    { apply Hin. exists r. tauto. }
    intro E0. rewrite E0 in Hu. exact Hu.
  - eapply Permutation_NoDup; [exact P | apply group_keys_NoDup].
  - exact Hin.
Qed.

(** ** The amounts of the report *)

Lemma usage_items_above (service_usage : Series string) :
  Forall (fun it => cent < item_cost it) (usage_items service_usage).
Proof.
  unfold usage_items. apply Forall_map. apply Forall_forall.
  intros kv Hkv. apply filter_In in Hkv. simpl.
  apply Qgtb_lt. tauto.
Qed.

Lemma day_items_above (daily_costs : Series (string * string))
    (date : string) :
  Forall (fun it => cent < item_cost it)
         (day_services (day_data daily_costs date)).
Proof.
  unfold day_data; simpl. apply Forall_map. apply Forall_forall.
  intros row Hrow. apply filter_In in Hrow. simpl.
  apply Qgtb_lt. tauto.
Qed.

(** X4. No amount at or below 0.01 is in the report, at any level: services,
    usage types and the entries of the days are all above 0.01. *)
Theorem report_amounts_above_cent (costs_df : DataFrame) :
  let report := process_cost_data costs_df in
  Forall (fun s =>
            cent < service_cost s
            /\ Forall (fun it => cent < item_cost it) (service_usageTypes s))
         (services report)
  /\ Forall (fun d => Forall (fun it => cent < item_cost it) (day_services d))
            (dailyCosts report).
Proof.
  intro report. split.
  - apply Forall_forall. intros s Hs.
    apply services_In in Hs. destruct Hs as [sc [Hsc [-> _]]]. simpl.
    split.
    + pose proof (service_costs_of_gt (mask_cost costs_df)) as Hgt.
      rewrite Forall_forall in Hgt. apply Qgtb_lt. apply Hgt. exact Hsc.
    + apply usage_items_above.
  - apply Forall_forall. intros d Hd.
    unfold report, process_cost_data in Hd; simpl in Hd.
    apply in_map_iff in Hd. destruct Hd as [date [<- _]].
    apply day_items_above.
Qed.

(** ** The days of the report *)

Lemma day_dates_of_report (costs_df : DataFrame) :
  map day_date (dailyCosts (process_cost_data costs_df))
  = sort_by String.leb
      (unique (map fst (map fst (groupby_sum day_key (mask_cost costs_df))))).
Proof.
  unfold process_cost_data; simpl. rewrite map_map. simpl.
  rewrite map_id, map_map. reflexivity.
Qed.

Lemma dailyCosts_In (costs_df : DataFrame) (d : DayData) :
  In d (dailyCosts (process_cost_data costs_df)) ->
  d = day_data (groupby_sum day_key (mask_cost costs_df)) (day_date d)
  /\ In (day_date d) (map Date (mask_cost costs_df)).
Proof.
  intro Hd. assert (Hdate := in_map day_date _ _ Hd).
  rewrite day_dates_of_report, sort_by_In, unique_In in Hdate.
  unfold process_cost_data in Hd; simpl in Hd.
  apply in_map_iff in Hd. destruct Hd as [date [<- _]]. simpl in *.
  split; [reflexivity|].
  apply in_map_iff in Hdate. destruct Hdate as [k [<- Hk]].
  apply groupby_key_In in Hk. apply in_map_iff in Hk.
  destruct Hk as [r [<- Hr]]. simpl. apply in_map. exact Hr.
Qed.

(** X5. The dates of the report are in strictly ascending order, each once:
    those of the records above 0.01. *)
Theorem report_days_ascending (costs_df : DataFrame) :
  ascending (map day_date (dailyCosts (process_cost_data costs_df)))
  /\ forall date : string,
       In date (map day_date (dailyCosts (process_cost_data costs_df)))
       <-> exists r, In r costs_df /\ cent < Cost r /\ Date r = date.
Proof.
  rewrite day_dates_of_report. split.
  - apply ascending_of_sorted.
    + apply sort_by_sorted; [apply String.leb_total | apply string_leb_trans].
    + eapply Permutation_NoDup; [apply sort_by_perm | apply unique_NoDup].
  - intro date. rewrite sort_by_In, unique_In. split.
    + intro Hd. apply in_map_iff in Hd. destruct Hd as [k [<- Hk]].
      apply groupby_key_In in Hk. apply in_map_iff in Hk.
      destruct Hk as [r [<- Hr]]. unfold mask_cost in Hr.
      apply filter_In in Hr. destruct Hr as [Hr G]. apply Qgtb_lt in G.
      exists r. simpl. tauto.
    + intros [r [Hr [G <-]]].
      apply (in_map fst (map fst _) (day_key r)).
      apply groupby_key_In. apply in_map. unfold mask_cost.
      apply filter_In. split; [exact Hr | apply Qgtb_lt; exact G].
Qed.

(** The names of the entries of one day, from the keys of the grouped
    series. *)
Lemma day_names (df : DataFrame) (date : string) :
  Forall (fun r => cent < Cost r) df ->
  map item_name (day_services (day_data (groupby_sum day_key df) date))
  = map snd (filter (fun k => String.eqb (fst k) date)
                    (map fst (groupby_sum day_key df))).
Proof.
  intro Hdf. unfold day_data; simpl.
  rewrite filter_all.
  - rewrite filter_map_comm, !map_map. reflexivity.
  - apply Forall_forall. intros row Hrow. apply filter_In in Hrow.
    pose proof (groupby_sum_above day_key df Hdf) as Hgt.
    rewrite Forall_forall in Hgt. apply Qgtb_lt. apply Hgt. tauto.
Qed.

Lemma sorted_snd_of_same_fst (d : string) (l : list (string * string)) :
  Forall (fun k => fst k = d) l ->
  StronglySorted (fun a b => pair_leb a b = true) l ->
  StronglySorted (fun a b => String.leb a b = true) (map snd l).
Proof.
  intros Hd. induction 1 as [|[d1 s1] l Hs IH Hx]; simpl.
  - constructor.
  - inversion Hd as [|? ? E Hd']; subst. simpl in *.
    constructor; [apply IH; exact Hd'|].
    apply Forall_map. apply Forall_forall. intros [d2 s2] Hk.
    rewrite Forall_forall in Hx, Hd'.
    specialize (Hx _ Hk). specialize (Hd' _ Hk). simpl in *. subst d2.
    rewrite pair_leb_same_fst in Hx. exact Hx.
Qed.

Lemma NoDup_snd_of_same_fst (d : string) (l : list (string * string)) :
  Forall (fun k => fst k = d) l -> NoDup l -> NoDup (map snd l).
Proof.
  intros Hd. induction 1 as [|[d1 s1] l Hnot Hnd IH]; simpl.
  - constructor.
  - inversion Hd as [|? ? E Hd']; subst. simpl in *.
    constructor; [|apply IH; exact Hd'].
    intro Hin. apply in_map_iff in Hin. destruct Hin as [[d2 s2] [E Hk]].
    rewrite Forall_forall in Hd'. specialize (Hd' _ Hk).
    simpl in *. subst. contradiction.
Qed.

(** X6. Each day of the report has at least one entry; its services are in
    strictly ascending order of name, each once: those with a record above
    0.01 on that day. *)
Theorem day_lists_each_service_once (costs_df : DataFrame) (d : DayData) :
  In d (dailyCosts (process_cost_data costs_df)) ->
  day_services d <> []
  /\ ascending (map item_name (day_services d))
  /\ forall name : string,
       In name (map item_name (day_services d))
       <-> exists r, In r costs_df /\ cent < Cost r
                     /\ Date r = day_date d /\ Service r = name.
Proof.
  intro Hd. apply dailyCosts_In in Hd. destruct Hd as [Ed Hdate].
  pose proof (mask_cost_above costs_df) as Hdf.
  pose proof (day_names (mask_cost costs_df) (day_date d) Hdf) as Hn.
  rewrite <- Ed in Hn.
  assert (Hin : forall name,
             In name (map item_name (day_services d))
             <-> exists r, In r costs_df /\ cent < Cost r
                           /\ Date r = day_date d /\ Service r = name).
  { intro name. rewrite Hn, in_map_iff. split.
    - intros [[d' s] [<- Hk]]. apply filter_In in Hk.
      destruct Hk as [Hk E]. simpl in E. apply String.eqb_eq in E.
      apply groupby_key_In in Hk. apply in_map_iff in Hk.
      destruct Hk as [r [Er Hr]]. unfold mask_cost in Hr.
      apply filter_In in Hr. destruct Hr as [Hr G]. apply Qgtb_lt in G.
      unfold day_key in Er. injection Er as E1 E2.
      exists r. simpl. subst. tauto.
    - intros [r [Hr [G [E1 E2]]]]. exists (day_key r). split; [exact E2|].
      apply filter_In. split.
      + apply groupby_key_In. apply in_map. unfold mask_cost.
        apply filter_In. split; [exact Hr | apply Qgtb_lt; exact G].
      + simpl. apply String.eqb_eq. exact E1. }
  assert (Hsame : Forall (fun k : string * string => fst k = day_date d)
                    (filter (fun k => String.eqb (fst k) (day_date d))
                       (map fst (groupby_sum day_key (mask_cost costs_df))))).
  { apply Forall_forall. intros k Hk. apply filter_In in Hk.
    apply String.eqb_eq. tauto. }
  split; [|split; [|exact Hin]].
  - apply in_map_iff in Hdate. destruct Hdate as [r [E Hr]].
    unfold mask_cost in Hr. apply filter_In in Hr. destruct Hr as [Hr G].
    apply Qgtb_lt in G.
    assert (Hs : In (Service r) (map item_name (day_services d))).
    { apply Hin. exists r. tauto. }
    intro E0. rewrite E0 in Hs. exact Hs.
  - rewrite Hn. apply ascending_of_sorted.
    + apply (sorted_snd_of_same_fst (day_date d)); [exact Hsame|].
      apply StronglySorted_filter. rewrite groupby_keys.
      apply (sort_by_sorted pair_leb pair_leb_total pair_leb_trans).
    + apply (NoDup_snd_of_same_fst (day_date d)); [exact Hsame|].
      apply NoDup_filter. apply group_keys_NoDup.
Qed.

(** X9. A record at or below 0.01 has no effect on the report, wherever it
    stands among the records. *)
Theorem small_record_has_no_effect (r : CostRecord)
    (before after : list CostRecord) :
  Cost r <= cent ->
  process_cost_data (before ++ r :: after)
  = process_cost_data (before ++ after).
Proof.
  intro Hr. apply process_cost_data_mask. unfold mask_cost.
  rewrite !filter_app. simpl.
  apply Qgtb_false in Hr. rewrite Hr. reflexivity.
Qed.

Lemma mask_cost_nil_iff (costs_df : DataFrame) :
  mask_cost costs_df = [] <-> Forall (fun r => Cost r <= cent) costs_df.
Proof.
  unfold mask_cost. split.
  - intro E. apply Forall_forall. intros r Hr.
    apply Qgtb_false.
    destruct (Qgtb (Cost r) cent) eqn:G; [|reflexivity].
    assert (Hin : In r (filter (fun r => Qgtb (Cost r) cent) costs_df))
      by (apply filter_In; tauto).
    rewrite E in Hin. contradiction.
  - intro H. apply filter_none.
    eapply Forall_impl; [|exact H]. intros r Hr. apply Qgtb_false. exact Hr.
Qed.

(** X10. The report has no service exactly when no record is above 0.01, and
    likewise no day; its [totalCost] is then 0, and above 0.01 otherwise. *)
Theorem report_empty_iff_no_record_above_cent (costs_df : DataFrame) :
  let report := process_cost_data costs_df in
  let all_small := Forall (fun r => Cost r <= cent) costs_df in
  (services report = [] <-> all_small)
  /\ (dailyCosts report = [] <-> all_small)
  /\ (totalCost report == 0 <-> all_small)
  /\ (all_small \/ cent < totalCost report).
Proof.
  intros report all_small. unfold report, all_small.
  rewrite <- mask_cost_nil_iff.
  assert (Hnil : mask_cost costs_df = [] ->
                 process_cost_data costs_df
                 = {| totalCost := 0; services := []; dailyCosts := [] |}).
  { intro E. rewrite (process_cost_data_mask costs_df []) by exact E.
    apply process_cost_data_nil. }
  assert (Hs : services (process_cost_data costs_df) = []
               <-> mask_cost costs_df = []).
  { split.
    - intro E. destruct (mask_cost costs_df) as [|r df] eqn:Em;
        [reflexivity|].
      assert (Hin : In (Service r)
                       (map service_name
                            (services (process_cost_data costs_df)))).
      { rewrite service_names_of_report.
        apply in_map_iff.
        assert (Hk : In (Service r)
                        (map fst (groupby_sum Service (mask_cost costs_df)))).
        { apply groupby_key_In. rewrite Em. left. reflexivity. }
        apply in_map_iff in Hk. destruct Hk as [kv [Ek Hkv]].
        exists kv. split; [exact Ek|]. apply sort_values_In. exact Hkv. }
      rewrite E in Hin. contradiction.
    - intro E. rewrite (Hnil E). reflexivity. }
  assert (Hgt : mask_cost costs_df <> []
                -> cent < totalCost (process_cost_data costs_df)).
  { intro Hne.
    change (totalCost (process_cost_data costs_df))
      with (series_sum (service_costs_of (mask_cost costs_df))).
    unfold series_sum. apply Qsum_above; [exact cent_nonneg | |].
    - intro E. apply map_eq_nil in E. apply Hne. apply Hs.
      rewrite services_of_report, E. reflexivity.
    - apply Forall_map.
      eapply Forall_impl; [|apply service_costs_of_gt].
      intros sc Hsc. apply Qgtb_lt. exact Hsc. }
  split; [exact Hs|]. split; [|split].
  - split.
    + intro E. destruct (mask_cost costs_df) as [|r df] eqn:Em;
        [reflexivity|].
      assert (Hin : In (Date r)
                       (map day_date
                            (dailyCosts (process_cost_data costs_df)))).
      { rewrite day_dates_of_report, sort_by_In, unique_In.
        apply (in_map fst (map fst _) (day_key r)).
        apply groupby_key_In. rewrite Em. left. reflexivity. }
      rewrite E in Hin. contradiction.
    + intro E. rewrite (Hnil E). reflexivity.
  - split.
    + intro E. destruct (mask_cost costs_df) as [|r df] eqn:Em;
        [reflexivity|].
      assert (cent < totalCost (process_cost_data costs_df))
        by (apply Hgt; discriminate).
      pose proof cent_nonneg. lra.
    + intro E. rewrite (Hnil E). reflexivity.
  - destruct (mask_cost costs_df) as [|r df] eqn:Em.
    + left. reflexivity.
    + right. apply Hgt. discriminate.
Qed.

(** ** The Fetcher: groups and their keys *)

Lemma collect_In {A B} (f : A -> outcome (list B)) (xs : list A)
    (l : list B) :
  collect f xs = Returned l ->
  forall y, In y l
            <-> exists x ys, In x xs /\ f x = Returned ys /\ In y ys.
Proof.
  revert l. induction xs as [|x xs IH]; simpl; intros l Hl y.
  - injection Hl as <-. split; [intros [] | intros [x [ys [[] _]]]].
  - destruct (f x) as [ys|e] eqn:Ex; simpl in Hl; [|discriminate].
    destruct (collect f xs) as [rest|e] eqn:Er; simpl in Hl; [|discriminate].
    injection Hl as <-. rewrite in_app_iff, (IH rest eq_refl y). split.
    + intros [Hy | [x' [ys' [Hx' [Ef Hy]]]]].
      * exists x, ys. tauto.
      * exists x', ys'. tauto.
    + intros [x' [ys' [[<- | Hx'] [Ef Hy]]]].
      * left. congruence.
      * right. exists x', ys'. tauto.
Qed.

Lemma collect_returns {A B} (f : A -> outcome (list B)) (xs : list A) :
  (forall x, In x xs -> exists ys, f x = Returned ys) ->
  exists l, collect f xs = Returned l.
Proof.
  induction xs as [|x xs IH]; simpl; intro Hall.
  - exists []. reflexivity.
  - destruct (Hall x (or_introl eq_refl)) as [ys ->].
    destruct IH as [rest ->]; [intros x' Hx'; apply Hall; right; exact Hx'|].
    exists (ys ++ rest). reflexivity.
Qed.

Lemma collect_returned_all {A B} (f : A -> outcome (list B)) (xs : list A)
    (l : list B) :
  collect f xs = Returned l ->
  forall x, In x xs -> exists ys, f x = Returned ys.
Proof.
  revert l. induction xs as [|x xs IH]; simpl; intros l Hl x' Hx'.
  - contradiction.
  - destruct (f x) as [ys|e] eqn:Ex; simpl in Hl; [|discriminate].
    destruct (collect f xs) as [rest|e] eqn:Er; simpl in Hl; [|discriminate].
    destruct Hx' as [<- | Hx'].
    + exists ys. exact Ex.
    + eapply IH; [reflexivity | exact Hx'].
Qed.

Lemma group_records_returns (date : string) (group : Group) :
  Keys group <> [] -> exists rs, group_records date group = Returned rs.
Proof.
  unfold group_records. destruct (Keys group); [congruence|].
  intros _. eexists. reflexivity.
Qed.

Lemma flatten_response_returns (response : Response) :
  (forall g, In g (flat_map Groups response) -> Keys g <> []) ->
  exists costs, flatten_response response = Returned costs.
Proof.
  intro Hkeys. unfold flatten_response. apply collect_returns.
  intros result Hres. apply collect_returns.
  intros g Hg. apply group_records_returns. apply Hkeys.
  apply in_flat_map. exists result. tauto.
Qed.

Lemma flatten_response_raises (response : Response) (g : Group) :
  In g (flat_map Groups response) -> Keys g = [] ->
  flatten_response response = Raised IndexError.
Proof.
  intros Hg Hk.
  destruct (flatten_response response) as [costs|x] eqn:Ef.
  - exfalso. apply in_flat_map in Hg. destruct Hg as [result [Hres Hg]].
    unfold flatten_response in Ef.
    destruct (collect_returned_all _ _ _ Ef result Hres) as [ys Eys].
    destruct (collect_returned_all _ _ _ Eys g Hg) as [rs Ers].
    unfold group_records in Ers. rewrite Hk in Ers. discriminate.
  - f_equal. apply (flatten_response_raises_IndexError response x Ef).
Qed.

(** X11. One group without a key makes the whole run fail: whatever its
    amount and whatever the other groups hold, [main] raises [IndexError]
    once the progress indicator is stopped, and writes no result, in either
    mode. *)
Theorem group_without_key_fails_the_run (args : Args) (env : Env)
    (start_date : string) (response : Response) (g : Group) :
  start_date_of env (days args) = Returned start_date ->
  boto3_client env = Returned tt ->
  get_cost_and_usage env start_date (end_date_of env) = Returned response ->
  In g (flat_map Groups response) ->
  Keys g = [] ->
  main args env
  = (header_of args start_date (end_date_of env) ++ fetch_raised,
     Raised IndexError).
Proof.
  intros Hs Hc Ha Hg Hk.
  apply main_fetch_raised; [exact Hs|].
  rewrite (get_cost_data_api_returns _ _ _ response Hc Ha).
  rewrite (flatten_response_raises response g Hg Hk). reflexivity.
Qed.

(** X12. When every group has a key, the fetch returns exactly the records
    of the groups with an amount above 0: the date is the start of the
    group's period, the service the first key, the usage type the second
    key, or "N/A" when there is none.  On the console it has only driven
    the progress indicator. *)
Theorem fetched_records_are_the_positive_groups (env : Env) (s e : string)
    (response : Response) :
  boto3_client env = Returned tt ->
  get_cost_and_usage env s e = Returned response ->
  (forall g, In g (flat_map Groups response) -> Keys g <> []) ->
  exists costs,
    get_cost_data env s e
    = ([ProgressStart; ProgressAddTask "[cyan]Fetching AWS cost data...";
        ProgressUpdate; ProgressStop],
       Returned costs)
    /\ forall r : CostRecord,
         In r costs
         <-> exists result g service rest,
               In result response /\ In g (Groups result)
               /\ Keys g = service :: rest /\ 0 < Amount g
               /\ r = {| Date := Start result; Service := service;
                         UsageType := hd "N/A"%string rest;
                         Cost := Amount g |}.
Proof.
  intros Hc Ha Hkeys.
  destruct (flatten_response_returns response Hkeys) as [costs Ef].
  exists costs. split.
  - rewrite (get_cost_data_api_returns _ _ _ response Hc Ha), Ef.
    reflexivity.
  - intro r. unfold flatten_response in Ef.
    rewrite (collect_In _ _ _ Ef r). split.
    + intros [result [ys [Hres [Eys Hr]]]].
      rewrite (collect_In _ _ _ Eys r) in Hr.
      destruct Hr as [g [rs [Hg [Ers Hr]]]].
      unfold group_records in Ers.
      destruct (Keys g) as [|service rest] eqn:Ek; [discriminate|].
      injection Ers as <-.
      destruct (Qgtb (Amount g) 0) eqn:G; [|contradiction].
      destruct Hr as [<- | []].
      exists result, g, service, rest.
      apply Qgtb_lt in G.
      repeat split; assumption.
    + intros [result [g [service [rest [Hres [Hg [Ek [G ->]]]]]]]].
      destruct (collect_returned_all _ _ _ Ef result Hres) as [ys Eys].
      exists result, ys. split; [exact Hres|]. split; [exact Eys|].
      rewrite (collect_In _ _ _ Eys). exists g. eexists.
      split; [exact Hg|]. split.
      * unfold group_records. rewrite Ek. reflexivity.
      * apply Qgtb_lt in G. rewrite G. left. destruct rest; reflexivity.
Qed.

(** X13. The client is created outside the [try], inside the progress
    indicator: an exception raised there, a [ClientError] included, is not
    caught; the indicator is stopped and the exception leaves [main]. *)
Theorem client_creation_failure_leaves_main (args : Args) (env : Env)
    (start_date : string) (x : exn) :
  start_date_of env (days args) = Returned start_date ->
  boto3_client env = Raised x ->
  main args env
  = (header_of args start_date (end_date_of env)
     ++ [ProgressStart; ProgressAddTask "[cyan]Fetching AWS cost data...";
         ProgressStop],
     Raised x).
Proof.
  intros Hs Hc. apply main_fetch_raised; [exact Hs|].
  apply get_cost_data_client_raises. exact Hc.
Qed.

(** ** What [main] writes *)

Lemma start_date_raises_OverflowError (env : Env) (days : Z) (x : exn) :
  start_date_of env days = Raised x -> x = OverflowError.
Proof.
  unfold start_date_of.
  destruct (Z.abs days >? max_timedelta_days)%Z.
  - intro E. injection E as <-. reflexivity.
  - destruct ((1 <=? now_second env - days)
              && (now_second env - days <=? max_ordinal))%Z%bool.
    + discriminate.
    + intro E. injection E as <-. reflexivity.
Qed.

Lemma main_fetch_human (args : Args) (env : Env) (start_date : string)
    (t : list event) (c : CostRecord) (costs : list CostRecord) :
  json_flag args = false ->
  start_date_of env (days args) = Returned start_date ->
  get_cost_data env start_date (end_date_of env)
  = (t, Returned (c :: costs)) ->
  main args env
  = (header_of args start_date (end_date_of env) ++ t
     ++ present_report (process_cost_data (c :: costs)),
     Returned tt).
Proof.
  intros Hj Hs Hg. unfold main, header_of, lift. rewrite Hs, Hj.
  cbn -[get_cost_data process_cost_data print_tables]. rewrite Hg.
  cbn -[process_cost_data print_tables].
  rewrite print_tables_present. reflexivity.
Qed.

Lemma prints_app (t1 t2 : list event) :
  prints (t1 ++ t2) = prints t1 ++ prints t2.
Proof. unfold prints. apply flat_map_app. Qed.

Lemma prints_present_report (r : Report) : prints (present_report r) = [].
Proof.
  unfold present_report. rewrite prints_app. simpl.
  induction (services r) as [|s l IH]; simpl; [reflexivity | exact IH].
Qed.

(** X14. In machine mode a run ends in one of four ways.  An
    [OverflowError] leaves [main] at the start date, with nothing written;
    an exception leaves it at the fetch, with only the progress indicator
    driven; or [main] returns, and then [print] was called once, as the
    last write, after the progress indicator: with a document, or, after
    the console's error line for a [ClientError], with the "no data"
    document. *)
Theorem machine_mode_writes_one_document (args : Args) (env : Env) :
  json_flag args = true ->
  main args env = ([], Raised OverflowError)
  \/ (exists x,
        main args env
        = ([ProgressStart; ProgressAddTask fetching; ProgressStop], Raised x))
  \/ (exists doc,
        main args env
        = ([ProgressStart; ProgressAddTask fetching; ProgressUpdate;
            ProgressStop; Print doc],
           Returned tt))
  \/ (exists msg,
        main args env
        = ([ProgressStart; ProgressAddTask fetching;
            ConsolePrint (error_getting_cost_data msg); ProgressStop;
            Print no_data_document],
           Returned tt)).
Proof.
  intro Hj.
  destruct (start_date_of env (days args)) as [start_date|x] eqn:Hs.
  - assert (Hh : header_of args start_date (end_date_of env) = [])
      by (unfold header_of; rewrite Hj; reflexivity).
    right.
    destruct (get_cost_data_cases env start_date (end_date_of env))
      as [[x E] | [[costs E] | [msg E]]].
    + left. exists x.
      rewrite (main_fetch_raised _ _ _ _ _ Hs E), Hh. reflexivity.
    + right. left. destruct costs as [|c costs].
      * exists no_data_document.
        rewrite (main_fetch_empty _ _ _ _ Hs E), Hh, Hj. reflexivity.
      * eexists. rewrite (main_fetch_json _ _ _ _ _ _ Hj Hs E).
        reflexivity.
    + right. right. exists msg.
      rewrite (main_fetch_empty _ _ _ _ Hs E), Hh, Hj. reflexivity.
  - left. rewrite (start_date_raises_OverflowError _ _ _ Hs) in Hs.
    apply main_start_raised. exact Hs.
Qed.

(** X15. In human mode the program prints no document, whatever happens.
    When the start date can be computed, the first thing it writes is the
    header with the period; when it cannot, [OverflowError] leaves [main]
    with nothing written. *)
Theorem human_mode_prints_no_document (args : Args) (env : Env) :
  json_flag args = false ->
  prints (fst (main args env)) = []
  /\ match start_date_of env (days args) with
     | Returned start_date =>
         hd_error (fst (main args env))
         = Some (header_panel start_date (end_date_of env))
     | Raised _ => main args env = ([], Raised OverflowError)
     end.
Proof.
  intro Hj.
  destruct (start_date_of env (days args)) as [start_date|x] eqn:Hs.
  - assert (Hh : header_of args start_date (end_date_of env)
                 = [header_panel start_date (end_date_of env)])
      by (unfold header_of; rewrite Hj; reflexivity).
    destruct (get_cost_data_cases env start_date (end_date_of env))
      as [[x E] | [[costs E] | [msg E]]].
    + rewrite (main_fetch_raised _ _ _ _ _ Hs E), Hh. split; reflexivity.
    + destruct costs as [|c costs].
      * rewrite (main_fetch_empty _ _ _ _ Hs E), Hh, Hj. split; reflexivity.
      * rewrite (main_fetch_human _ _ _ _ _ _ Hj Hs E), Hh.
        split; [|reflexivity].
        unfold fst. rewrite !prints_app.
        rewrite prints_present_report. reflexivity.
    + rewrite (main_fetch_empty _ _ _ _ Hs E), Hh, Hj. split; reflexivity.
  - rewrite (start_date_raises_OverflowError _ _ _ Hs) in Hs.
    rewrite (main_start_raised _ _ _ Hs). split; reflexivity.
Qed.

(** X17. With records, none above 0.01, human mode still prints its
    tables: a services table with the total row alone, of cost 0 and the
    literal 100.0%, and no table of usage types. *)
Theorem human_mode_small_costs (args : Args) (env : Env)
    (start_date : string) (t : list event) (c : CostRecord)
    (costs : list CostRecord) :
  json_flag args = false ->
  start_date_of env (days args) = Returned start_date ->
  get_cost_data env start_date (end_date_of env)
  = (t, Returned (c :: costs)) ->
  Forall (fun r => Cost r <= cent) (c :: costs) ->
  main args env
  = (header_of args start_date (end_date_of env) ++ t
     ++ [ConsoleTable "Services Overview"
           [{| row_label := "[bold]Total[/bold]";
               row_cost := BoldMoney 0;
               row_percentage := Literal "[bold]100.0%[/bold]" |}];
         ConsoleBlank;
         breakdown_panel],
     Returned tt).
Proof.
  intros Hj Hd Hg Hs.
  rewrite (main_fetch_human args env start_date t c costs Hj Hd Hg).
  rewrite (process_cost_data_small _ Hs). reflexivity.
Qed.

(** X18. A day count that [timedelta] does not take, or that leads before
    the year 1 or after the year 9999, makes [main] raise [OverflowError]
    before it writes anything, in either mode. *)
Theorem day_count_out_of_range_raises (args : Args) (env : Env) :
  (Z.abs (days args) > 999999999
   \/ now_second env - days args < 1
   \/ now_second env - days args > 3652059)%Z ->
  main args env = ([], Raised OverflowError).
Proof.
  intro Hr. apply main_start_raised. unfold start_date_of.
  unfold max_timedelta_days, max_ordinal.
  destruct (Z.abs (days args) >? 999999999)%Z eqn:E1; [reflexivity|].
  destruct ((1 <=? now_second env - days args)
            && (now_second env - days args <=? 3652059))%Z%bool eqn:E2;
    [|reflexivity].
  exfalso. apply andb_true_iff in E2. destruct E2 as [E2 E3].
  apply Z.leb_le in E2. apply Z.leb_le in E3.
  rewrite Z.gtb_ltb in E1. apply Z.ltb_ge in E1. lia.
Qed.

End Facts.

(** * The Aggregator on binary64: sums *)

Module Binary64Facts.
Import Binary64.

Section FloatFacts.
Context {pd : Pandas}.

Lemma float_sort_values_In {K} (x : K * float) (s : Series K) :
  In x (sort_values_desc s) <-> In x s.
Proof.
  split; apply Permutation_in;
    [symmetry|]; apply sort_values_perm.
Qed.

Lemma float_groupby_sum_iff {K} `{KeyOk K} (key : CostRecord -> K)
    (df : DataFrame) (k : K) (v : float) :
  In (k, v) (groupby_sum key df)
  <-> group_rows key k df <> []
      /\ v = sum_of_group (map Cost (group_rows key k df)).
Proof.
  unfold groupby_sum. rewrite in_map_iff. split.
  - intros [k' [E Hk']]. injection E as -> <-.
    rewrite sort_by_In, unique_In, in_map_iff in Hk'.
    destruct Hk' as [r [<- Hr]]. split; [|reflexivity].
    intro E. assert (Hin : In r (group_rows key (key r) df)).
    { unfold group_rows. apply filter_In. split; [exact Hr|].
      apply key_eqb_refl. }
    rewrite E in Hin. exact Hin.
  - intros [Hne ->]. exists k. split; [reflexivity|].
    rewrite sort_by_In, unique_In, in_map_iff.
    destruct (group_rows key k df) as [|r rows] eqn:E; [congruence|].
    assert (Hin : In r (group_rows key k df)) by (rewrite E; left; reflexivity).
    unfold group_rows in Hin. apply filter_In in Hin.
    destruct Hin as [Hr Hk]. apply key_eqb_true in Hk.
    exists r. tauto.
Qed.

(** The rows of a service in the filtered frame are the retained records
    of the service, and likewise for a usage type of a service. *)
Lemma rows_of_service (service : string) (costs : list CostRecord) :
  group_rows Service service (mask_cost costs)
  = retained_of_service service costs.
Proof. reflexivity. Qed.

Lemma rows_of_usage (service usage_type : string)
    (costs : list CostRecord) :
  group_rows UsageType usage_type (mask_service service (mask_cost costs))
  = retained_of_usage service usage_type costs.
Proof. reflexivity. Qed.

(** The retained services: the entries of the grouped series above 0.01,
    in the order the sort leaves. *)
Lemma service_costs_of_In (costs : list CostRecord) (sc : string * float) :
  In sc (service_costs_of (mask_cost costs))
  <-> retained_of_service (fst sc) costs <> []
      /\ snd sc = sum_of_group (map Cost (retained_of_service (fst sc) costs))
      /\ gtb (snd sc) cent = true.
Proof.
  unfold service_costs_of. rewrite float_sort_values_In.
  unfold series_gt. rewrite filter_In.
  destruct sc as [k v]. rewrite float_groupby_sum_iff, rows_of_service.
  simpl. tauto.
Qed.

Lemma float_services_of_report (costs : list CostRecord) :
  services (process_cost_data costs)
  = map (fun sc => service_data (mask_cost costs)
                     (totalCost (process_cost_data costs)) (fst sc) (snd sc))
        (service_costs_of (mask_cost costs)).
Proof.
  unfold process_cost_data; simpl.
  rewrite flat_map_keep. f_equal.
  apply filter_all. apply Forall_forall. intros sc Hsc.
  apply service_costs_of_In in Hsc. tauto.
Qed.

Lemma usage_items_In (costs : list CostRecord) (service : string)
    (it : Item) :
  In it (usage_items (service_usage_of (mask_cost costs) service))
  <-> retained_of_usage service (item_name it) costs <> []
      /\ item_cost it
         = sum_of_group
             (map Cost (retained_of_usage service (item_name it) costs))
      /\ gtb (item_cost it) cent = true.
Proof.
  unfold usage_items. rewrite in_map_iff. split.
  - intros [[k v] [<- Hkv]]. simpl.
    apply filter_In in Hkv. destruct Hkv as [Hkv G]. simpl in G.
    unfold service_usage_of in Hkv. rewrite float_sort_values_In in Hkv.
    unfold series_gt in Hkv. apply filter_In in Hkv.
    destruct Hkv as [Hkv _].
    apply float_groupby_sum_iff in Hkv. rewrite rows_of_usage in Hkv.
    tauto.
  - intros [Hne [Hv G]]. exists (item_name it, item_cost it).
    split; [destruct it; reflexivity|].
    apply filter_In. split; [|exact G].
    unfold service_usage_of. rewrite float_sort_values_In.
    unfold series_gt. apply filter_In. split; [|exact G].
    apply float_groupby_sum_iff. rewrite rows_of_usage. tauto.
Qed.



End FloatFacts.

(** Terms added in order, equal values left in their order. *)
#[export] Instance sequential : Pandas.
Proof.
  refine {| sort_values_desc := @stable_desc;
            sum_of_series := sequential_sum;
            sum_of_group := sequential_sum |}.
  intros K s. apply sort_by_perm.
Defined.

(** ** Sums on sample inputs *)




End Binary64Facts.

(** * The properties on sample inputs

    The sample worlds are evaluated with the order a stable sort leaves
    ([stable_order]); the samples have no two equal costs unless said
    otherwise. *)

Example scenario_report :
  process_cost_data scenario_costs
  = {| totalCost := 15;
       services :=
         [{| service_name := "EC2"; service_cost := 10;
             service_percentage := 1000 # 15;
             service_usageTypes :=
               [{| item_name := "BoxUsage"; item_cost := 10 |}] |};
          {| service_name := "S3"; service_cost := 5;
             service_percentage := 500 # 15;
             service_usageTypes :=
               [{| item_name := "Storage"; item_cost := 5 |}] |}];
       dailyCosts :=
         [{| day_date := "2024-01-01";
             day_services :=
               [{| item_name := "EC2"; item_cost := 10 |};
                {| item_name := "S3"; item_cost := 5 |}] |}] |}.
Proof. vm_compute. reflexivity. Qed.

Example sample_start_date :
  start_date_of (env_with (Returned [])) 30 = Returned "2024-01-01"%string.
Proof. reflexivity. Qed.

(** ** The Fetcher's threshold (C1) *)

Lemma fetcher_keeps_positive_costs_witness :
  get_cost_and_usage (env_with (Returned (response_of scenario_costs)))
    "2024-01-01" "2024-01-31"
  = Returned (response_of scenario_costs)
  /\ get_cost_data (env_with (Returned (response_of scenario_costs)))
       "2024-01-01" "2024-01-31"
     = (fetch_returned, Returned scenario_costs)
  /\ Forall (fun r => 0 < Cost r) scenario_costs.
Proof.
  split; [reflexivity|]. split; [reflexivity|].
  apply (fetcher_keeps_positive_costs
           (env_with (Returned (response_of scenario_costs)))
           "2024-01-01" "2024-01-31"
           (response_of scenario_costs) fetch_returned scenario_costs);
    reflexivity.
Defined.

(** C1 as stated fails: an amount of half a cent passes the Fetcher's test
    and is returned, with 0 < cost <= 0.01. *)
Lemma fetcher_returns_half_cent :
  get_cost_data (env_with (Returned (response_of small_costs)))
    "2024-01-01" "2024-01-31"
  = (fetch_returned,
     Returned [record "2024-01-01" "S3" "Requests" (1 # 200)])
  /\ 0 < Cost (record "2024-01-01" "S3" "Requests" (1 # 200))
  /\ Cost (record "2024-01-01" "S3" "Requests" (1 # 200)) <= cent.
Proof.
  split; [reflexivity|]. unfold cent. simpl. split; lra.
Qed.

(** ** No data (C2) *)

Lemma empty_fetch_reports_no_data_witness :
  start_date_of (env_with (Raised (ClientError "AccessDenied")))
    (days json_mode)
  = Returned "2024-01-01"%string
  /\ get_cost_data (env_with (Raised (ClientError "AccessDenied")))
       "2024-01-01" "2024-01-31"
     = (fetch_caught "AccessDenied", Returned [])
  /\ main json_mode (env_with (Raised (ClientError "AccessDenied")))
     = ([ProgressStart; ProgressAddTask fetching;
         ConsolePrint (error_getting_cost_data "AccessDenied");
         ProgressStop;
         Print (JObj [("error"%string, JStr "No cost data found")])],
        Returned tt).
Proof.
  split; [reflexivity|]. split; [reflexivity|].
  apply (empty_fetch_reports_no_data json_mode
           (env_with (Raised (ClientError "AccessDenied")))
           "2024-01-01" (fetch_caught "AccessDenied"));
    reflexivity.
Defined.

(** C2 as stated fails: on an empty answer machine mode prints a document
    whose message is "No cost data found", not "no data". *)
Lemma machine_mode_no_data_message :
  main json_mode (env_with (Returned []))
  = (fetch_returned
     ++ [Print (JObj [("error"%string, JStr "No cost data found")])],
     Returned tt)
  /\ JObj [("error"%string, JStr "No cost data found")]
     <> JObj [("error"%string, JStr "no data")].
Proof.
  split; [reflexivity | discriminate].
Qed.

(** ** Failures of the fetch (C5) *)



(** ** The divisor of the percentages (C6) *)

Lemma percentage_divisor_above_cent_witness :
  In ("EC2"%string, 10) (service_costs_of (mask_cost scenario_costs))
  /\ Qgtb 10 cent = true
  /\ cent < totalCost (process_cost_data scenario_costs)
  /\ ~ totalCost (process_cost_data scenario_costs) == 0.
Proof.
  assert (Hin : In ("EC2"%string, 10)
                   (service_costs_of (mask_cost scenario_costs))).
  { vm_compute. left. reflexivity. }
  split; [exact Hin|]. split; [reflexivity|].
  exact (proj1 (percentage_divisor_above_cent scenario_costs "EC2" 10
                  Hin eq_refl)).
Defined.

(** ** Equal costs (C7) *)

(** C7 as stated fails: the order of equal costs is not that of a stable
    sort.  With services A and B of cost 1 and C and D of cost 2, a stable
    sort of the grouped series leaves C, D, A, B; the library's default
    sort is free to leave another descending order, and the one it is
    seen to leave, that of an ascending sort reversed, is D, C, B, A. *)
Lemma equal_costs_not_in_stable_order :
  map service_name
      (services (@process_cost_data reversed_order two_ties_costs))
  = ["D"%string; "C"%string; "B"%string; "A"%string]
  /\ map fst (stable_desc (groupby_sum Service (mask_cost two_ties_costs)))
     = ["C"%string; "D"%string; "A"%string; "B"%string]
  /\ map service_name
         (services (@process_cost_data reversed_order two_ties_costs))
     <> map fst (stable_desc
                   (groupby_sum Service (mask_cost two_ties_costs))).
Proof.
  split; [vm_compute; reflexivity|].
  split; [vm_compute; reflexivity|].
  vm_compute. discriminate.
Qed.

(** ** The Aggregator called twice (C8) *)

Lemma aggregate_twice_same_report_witness :
  (0 < List.length [FrameObject scenario_costs])%nat
  /\ let (report1, st1) :=
       process_cost_data_at 0%nat [FrameObject scenario_costs] in
     let (report2, st2) := process_cost_data_at 0%nat st1 in
     report1 = report2
     /\ report1
        = process_cost_data
            (rows_of (nth 0%nat [FrameObject scenario_costs]
                          (FrameObject [])))
     /\ forall p : ref,
          (p < List.length [FrameObject scenario_costs])%nat ->
          nth p st2 (FrameObject [])
          = nth p [FrameObject scenario_costs] (FrameObject []).
Proof.
  split; [simpl; lia|].
  apply (aggregate_twice_same_report 0%nat [FrameObject scenario_costs]).
  simpl. lia.
Defined.

(** ** Only small costs (C9) *)

Lemma small_costs_give_empty_report_witness :
  json_flag json_mode = true
  /\ start_date_of (env_with (Returned (response_of small_costs)))
       (days json_mode)
     = Returned "2024-01-01"%string
  /\ get_cost_data (env_with (Returned (response_of small_costs)))
       "2024-01-01" "2024-01-31"
     = (fetch_returned, Returned small_costs)
  /\ main json_mode (env_with (Returned (response_of small_costs)))
     = (fetch_returned
        ++ [Print (JObj [("totalCost"%string, JNum 0);
                         ("services"%string, JArr []);
                         ("dailyCosts"%string, JArr [])])],
        Returned tt).
Proof.
  split; [reflexivity|]. split; [reflexivity|]. split; [reflexivity|].
  apply (small_costs_give_empty_report json_mode
           (env_with (Returned (response_of small_costs)))
           "2024-01-01" fetch_returned
           (record "2024-01-01" "S3" "Requests" (1 # 200)) []).
  - reflexivity.
  - reflexivity.
  - reflexivity.
  - constructor; [|constructor]. unfold cent. simpl. lra.
Defined.

(** ** The two output modes (C10) *)

(** C10 as stated fails: the two modes do not show the same numbers.  For
    one service with usage types of 30 and 10, human mode shows the share
    75 (percent) of the first usage type; machine mode shows no such
    number, its usage types carrying a name and a cost only. *)
Lemma usage_percentage_only_in_human_mode :
  shows 75 (fst (main human_mode (env_with (Returned (response_of split_costs)))))
  = true
  /\ shows 75 (fst (main json_mode (env_with (Returned (response_of split_costs)))))
     = false.
Proof.
  split; vm_compute; reflexivity.
Qed.

(** ** The further properties on sample inputs *)

(** The amount of half a cent is in no level of the report. *)
Example half_cent_excluded :
  process_cost_data (small_costs ++ scenario_costs)
  = process_cost_data scenario_costs.
Proof. vm_compute. reflexivity. Qed.

Lemma service_lists_each_usage_type_once_witness :
  In {| service_name := "EC2"; service_cost := 40;
        service_percentage := 4000 # 40;
        service_usageTypes :=
          [{| item_name := "BoxUsage"; item_cost := 30 |};
           {| item_name := "DataTransfer"; item_cost := 10 |}] |}
     (services (process_cost_data split_costs))
  /\ NoDup ["BoxUsage"%string; "DataTransfer"%string].
Proof.
  assert (Hin : In {| service_name := "EC2"; service_cost := 40;
                      service_percentage := 4000 # 40;
                      service_usageTypes :=
                        [{| item_name := "BoxUsage"; item_cost := 30 |};
                         {| item_name := "DataTransfer"; item_cost := 10 |}] |}
                   (services (process_cost_data split_costs))).
  { vm_compute. left. reflexivity. }
  split; [exact Hin|].
  exact (proj1 (proj2 (service_lists_each_usage_type_once split_costs _ Hin))).
Defined.

Lemma day_lists_each_service_once_witness :
  In {| day_date := "2024-01-01";
        day_services := [{| item_name := "EC2"; item_cost := 10 |};
                         {| item_name := "S3"; item_cost := 5 |}] |}
     (dailyCosts (process_cost_data scenario_costs))
  /\ ascending ["EC2"%string; "S3"%string].
Proof.
  assert (Hin : In {| day_date := "2024-01-01";
                      day_services :=
                        [{| item_name := "EC2"; item_cost := 10 |};
                         {| item_name := "S3"; item_cost := 5 |}] |}
                   (dailyCosts (process_cost_data scenario_costs))).
  { vm_compute. left. reflexivity. }
  split; [exact Hin|].
  exact (proj1 (proj2 (day_lists_each_service_once scenario_costs _ Hin))).
Defined.

Lemma small_record_has_no_effect_witness :
  Cost (record "2024-01-01" "S3" "Requests" (1 # 200)) <= cent
  /\ process_cost_data
       ([record "2024-01-01" "EC2" "BoxUsage" 10]
        ++ record "2024-01-01" "S3" "Requests" (1 # 200)
           :: [record "2024-01-01" "S3" "Storage" 5])
     = process_cost_data
         ([record "2024-01-01" "EC2" "BoxUsage" 10]
          ++ [record "2024-01-01" "S3" "Storage" 5]).
Proof.
  assert (Hs : Cost (record "2024-01-01" "S3" "Requests" (1 # 200)) <= cent).
  { unfold cent. simpl. lra. }
  split; [exact Hs|].
  exact (small_record_has_no_effect _ _ _ Hs).
Defined.

Lemma group_without_key_fails_the_run_witness :
  start_date_of (env_with (Returned keyless_response)) (days json_mode)
  = Returned "2024-01-01"%string
  /\ boto3_client (env_with (Returned keyless_response)) = Returned tt
  /\ In {| Keys := []; Amount := 0 |} (flat_map Groups keyless_response)
  /\ main json_mode (env_with (Returned keyless_response))
     = ([ProgressStart; ProgressAddTask fetching; ProgressStop],
        Raised IndexError).
Proof.
  split; [reflexivity|]. split; [reflexivity|].
  assert (Hin : In {| Keys := []; Amount := 0 |}
                   (flat_map Groups keyless_response)).
  { simpl. right. left. reflexivity. }
  split; [exact Hin|].
  exact (group_without_key_fails_the_run json_mode
           (env_with (Returned keyless_response)) "2024-01-01"
           keyless_response
           {| Keys := []; Amount := 0 |} eq_refl eq_refl eq_refl Hin
           eq_refl).
Defined.

Lemma fetched_records_are_the_positive_groups_witness :
  (forall g, In g (flat_map Groups (response_of scenario_costs)) ->
             Keys g <> [])
  /\ exists costs,
       get_cost_data (env_with (Returned (response_of scenario_costs)))
         "2024-01-01" "2024-01-31"
       = ([ProgressStart; ProgressAddTask "[cyan]Fetching AWS cost data...";
           ProgressUpdate; ProgressStop],
          Returned costs).
Proof.
  assert (Hk : forall g, In g (flat_map Groups (response_of scenario_costs)) ->
                         Keys g <> []).
  { simpl. intros g [<- | [<- | []]]; discriminate. }
  split; [exact Hk|].
  destruct (fetched_records_are_the_positive_groups
              (env_with (Returned (response_of scenario_costs)))
              "2024-01-01" "2024-01-31" (response_of scenario_costs)
              eq_refl eq_refl Hk) as [costs [E _]].
  exists costs. exact E.
Defined.

Lemma client_creation_failure_leaves_main_witness :
  start_date_of (env_without_client (ClientError "ExpiredToken"))
    (days human_mode)
  = Returned "2024-01-01"%string
  /\ boto3_client (env_without_client (ClientError "ExpiredToken"))
     = Raised (ClientError "ExpiredToken")
  /\ main human_mode (env_without_client (ClientError "ExpiredToken"))
     = ([header_panel "2024-01-01" "2024-01-31";
         ProgressStart; ProgressAddTask "[cyan]Fetching AWS cost data...";
         ProgressStop],
        Raised (ClientError "ExpiredToken")).
Proof.
  split; [reflexivity|]. split; [reflexivity|].
  exact (client_creation_failure_leaves_main human_mode
           (env_without_client (ClientError "ExpiredToken")) "2024-01-01"
           (ClientError "ExpiredToken") eq_refl eq_refl).
Defined.

Lemma machine_mode_writes_one_document_witness :
  json_flag json_mode = true
  /\ (main json_mode (env_with (Returned (response_of scenario_costs)))
      = ([], Raised OverflowError)
      \/ (exists x,
            main json_mode (env_with (Returned (response_of scenario_costs)))
            = ([ProgressStart; ProgressAddTask fetching; ProgressStop],
               Raised x))
      \/ (exists doc,
            main json_mode (env_with (Returned (response_of scenario_costs)))
            = ([ProgressStart; ProgressAddTask fetching; ProgressUpdate;
                ProgressStop; Print doc],
               Returned tt))
      \/ (exists msg,
            main json_mode (env_with (Returned (response_of scenario_costs)))
            = ([ProgressStart; ProgressAddTask fetching;
                ConsolePrint (error_getting_cost_data msg); ProgressStop;
                Print no_data_document],
               Returned tt))).
Proof.
  split; [reflexivity|].
  apply (machine_mode_writes_one_document json_mode
           (env_with (Returned (response_of scenario_costs)))).
  reflexivity.
Defined.

Lemma human_mode_prints_no_document_witness :
  json_flag human_mode = false
  /\ prints (fst (main human_mode
                    (env_with (Returned (response_of scenario_costs)))))
     = []
  /\ hd_error (fst (main human_mode
                      (env_with (Returned (response_of scenario_costs)))))
     = Some (header_panel "2024-01-01" "2024-01-31").
Proof.
  split; [reflexivity|].
  exact (human_mode_prints_no_document human_mode
           (env_with (Returned (response_of scenario_costs))) eq_refl).
Defined.

Lemma human_mode_small_costs_witness :
  json_flag human_mode = false
  /\ start_date_of (env_with (Returned (response_of small_costs)))
       (days human_mode)
     = Returned "2024-01-01"%string
  /\ get_cost_data (env_with (Returned (response_of small_costs)))
       "2024-01-01" "2024-01-31"
     = (fetch_returned, Returned small_costs)
  /\ main human_mode (env_with (Returned (response_of small_costs)))
     = ([header_panel "2024-01-01" "2024-01-31";
         ProgressStart; ProgressAddTask fetching; ProgressUpdate;
         ProgressStop;
         ConsoleTable "Services Overview"
           [{| row_label := "[bold]Total[/bold]";
               row_cost := BoldMoney 0;
               row_percentage := Literal "[bold]100.0%[/bold]" |}];
         ConsoleBlank;
         breakdown_panel],
        Returned tt).
Proof.
  split; [reflexivity|]. split; [reflexivity|]. split; [reflexivity|].
  apply (human_mode_small_costs human_mode
           (env_with (Returned (response_of small_costs))) "2024-01-01"
           fetch_returned
           (record "2024-01-01" "S3" "Requests" (1 # 200)) []).
  - reflexivity.
  - reflexivity.
  - reflexivity.
  - constructor; [|constructor]. unfold cent. simpl. lra.
Defined.

Lemma day_count_out_of_range_raises_witness :
  (Z.abs (days {| days := 1000000000; json_flag := true |}) > 999999999)%Z
  /\ main {| days := 1000000000; json_flag := true |}
          (env_with (Returned (response_of scenario_costs)))
     = ([], Raised OverflowError).
Proof.
  assert (Hd : (Z.abs (days {| days := 1000000000; json_flag := true |})
                > 999999999)%Z) by (simpl; lia).
  split; [exact Hd|].
  exact (day_count_out_of_range_raises
           {| days := 1000000000; json_flag := true |}
           (env_with (Returned (response_of scenario_costs)))
           (or_introl Hd)).
Defined.

(** A day count within what [timedelta] takes that leads before the year 1:
    the subtraction raises. *)
Example day_count_before_year_one :
  main {| days := 800000; json_flag := false |}
       (env_with (Returned (response_of scenario_costs)))
  = ([], Raised OverflowError).
Proof. reflexivity. Qed.
